(** * compute-sdk-go: the kvstore and configstore packages

    A shallow embedding of the two store clients of the SDK,
    [kvstore] (Open, Lookup, Insert, Delete, Entry.String) and
    [configstore] (Open, Get), over an explicit model of Go's [error]
    values, of [io.Reader] streams and of the host calls the wrappers
    make through [internal/abi/fastly]. *)

From Stdlib Require Import Strings.String Strings.Byte NArith List Bool Lia.
From stdpp Require Import base option strings list gmap pretty.

Local Open Scope string_scope.

(* ===================================================================== *)
(** ** Go runtime: outcomes, the call monad, error values                 *)
(* ===================================================================== *)

(** A Go call either returns or panics (here: a nil dereference). *)
Inductive outcome (A : Type) : Type :=
| Returns (a : A)
| Panics.
Arguments Returns {A} a.
Arguments Panics {A}.

(** A call against a host in state [Σ]. *)
Definition M (Σ A : Type) : Type := Σ -> outcome (A * Σ).

Definition ret {Σ A} (a : A) : M Σ A := fun st => Returns (a, st).

Definition bind {Σ A B} (c : M Σ A) (k : A -> M Σ B) : M Σ B :=
  fun st =>
    match c st with
    | Returns (a, st') => k a st'
    | Panics => Panics
    end.

Definition panic {Σ A} : M Σ A := fun _ => Panics.

(** [p.f] on a pointer [p]: a nil pointer panics. *)
Definition deref {Σ A} (p : option A) : M Σ A :=
  match p with
  | Some a => ret a
  | None => panic
  end.

Notation "'let*' x := c 'in' k" := (bind c (fun x => k))
  (at level 10, x pattern, c at level 100, k at level 200).

(** The status type of the host ABI: "a small integer returned by the
    host boundary". *)
Definition FastlyStatus : Type := N.

(** Go [error] values, as far as the two packages build or receive them:
    [errors.New] values, [fmt.Errorf] values with a [%w] verb, and the
    error value under which the ABI hands out a host status.  A nil
    [error] is [None] in [option error]. *)
Inductive error : Type :=
| errorString (s : string)
| wrapError (msg : string) (err : error)
| FastlyError (status : FastlyStatus).

#[global] Instance error_eq_dec : EqDecision error.
Proof. solve_decision. Defined.

Module errors.

Definition New (text : string) : error := errorString text.

(** [errors.Is]: [err] or an error in its [Unwrap] chain equals
    [target]. *)
Fixpoint Is (err target : error) : bool :=
  if decide (err = target) then true
  else match err with
       | wrapError _ inner => Is inner target
       | _ => false
       end.

End errors.

(* ===================================================================== *)
(** ** io: finite, single-pass readers and ReadAll                        *)
(* ===================================================================== *)

Module io.

Definition EOF : error := errors.New "EOF".

(** A reader is the finite list of the results its next [Read] calls
    will give; once the list is used up every [Read] gives
    [(0, EOF)].  [reads] counts the [Read] calls made so far. *)
Record Reader : Type := mkReader {
  pending : list (list byte * option error);
  reads : nat
}.

Definition Read (r : Reader) : (list byte * option error) * Reader :=
  match pending r with
  | [] => (([], Some EOF), mkReader [] (S (reads r)))
  | res :: rest => (res, mkReader rest (S (reads r)))
  end.

(** The loop of [io.ReadAll], started on buffer [b]: keep reading and
    appending until a [Read] gives an error; EOF is turned into nil. *)
Fixpoint ReadAll_loop (p : list (list byte * option error)) (n : nat)
    (b : list byte) : (list byte * option error) * Reader :=
  match p with
  | [] => ((b, None), mkReader [] (S n))
  | (data, err) :: rest =>
      let b := (b ++ data)%list in
      match err with
      | Some e =>
          if decide (e = EOF) then ((b, None), mkReader rest (S n))
          else ((b, Some e), mkReader rest (S n))
      | None => ReadAll_loop rest (S n) b
      end
  end.

Definition ReadAll (r : Reader) : (list byte * option error) * Reader :=
  ReadAll_loop (pending r) (reads r) [].

(** [strings.NewReader] / [bytes.NewReader]: the whole content in one
    [Read], then EOF. *)
Definition NewReader (v : list byte) : Reader :=
  match v with
  | [] => mkReader [] 0
  | _ => mkReader [(v, None)] 0
  end.

End io.

(* ===================================================================== *)
(** ** internal/abi/fastly: what the wrappers use of it                   *)
(* ===================================================================== *)

Module fastly.

(** The package is not part of the sources at hand, so what the
    wrappers use of it is taken as parameters: the four status
    constants (pairwise different), the [String] method of a status
    (the [%s] verb), the [Error] method of a host error, and
    [IsFastlyError]. *)
Class ABI : Type := {
  FastlyStatusNone : FastlyStatus;
  FastlyStatusInval : FastlyStatus;
  FastlyStatusBadf : FastlyStatus;
  FastlyStatusUnsupported : FastlyStatus;
  FastlyStatus_distinct :
    NoDup [FastlyStatusBadf; FastlyStatusNone;
           FastlyStatusUnsupported; FastlyStatusInval];
  FastlyStatus_String : FastlyStatus -> string;
  FastlyError_Error : FastlyStatus -> string;
  IsFastlyError : error -> FastlyStatus * bool
}.

(** The host calls behind the KV store, over a host state [Σ]. *)
Class KVHost (Σ : Type) : Type := {
  KVStore : Type;
  OpenKVStore : string -> M Σ (option KVStore * option error);
  KVStore_Lookup :
    option KVStore -> string -> M Σ (option io.Reader * option error);
  KVStore_Insert :
    option KVStore -> string -> option io.Reader -> M Σ (option error);
  KVStore_Delete : option KVStore -> string -> M Σ (option error)
}.

(** The host calls behind the config store. *)
Class DictHost (Σ : Type) : Type := {
  Dictionary : Type;
  OpenDictionary : string -> M Σ (option Dictionary * option error);
  Dictionary_Get :
    option Dictionary -> string -> M Σ (string * option error)
}.

End fastly.
Import fastly.

(** The [Error] method. *)
Definition Error `{ABI} (err : error) : string :=
  match err with
  | errorString s => s
  | wrapError msg _ => msg
  | FastlyError status => FastlyError_Error status
  end.

Module fmt.

(** [fmt.Errorf("%w (%s)", err, status)]. *)
Definition Errorf_w_s `{ABI} (err : error) (status : FastlyStatus) : error :=
  wrapError (Error err ++ " (" ++ FastlyStatus_String status ++ ")") err.

End fmt.

(* ===================================================================== *)
(** ** package kvstore                                                    *)
(* ===================================================================== *)

Module kvstore.

Definition ErrStoreNotFound : error := errors.New "kvstore: store not found".
Definition ErrKeyNotFound : error := errors.New "kvstore: key not found".
Definition ErrInvalidKey : error := errors.New "kvstore: invalid key".
Definition ErrUnexpected : error := errors.New "kvstore: unexpected error".

(** [Entry]: the embedded [io.Reader] (an interface value, nil is
    [None]) and the cache of [String]. *)
Record Entry : Type := mkEntry {
  Reader : option io.Reader;
  validString : bool;
  s : string
}.

(** [(e *Entry) String()]: the result and the entry afterwards. *)
Definition String (e : Entry) : outcome (string * Entry) :=
  if validString e then Returns (s e, e)
  else
    match Reader e with
    | None => Panics
    | Some r =>
        let '((b, err), r) := io.ReadAll r in
        let e := mkEntry (Some r) (validString e) (s e) in
        match err with
        | Some _ => Returns ("", e)
        | None =>
            let e := mkEntry (Reader e) (validString e) (string_of_list_byte b) in
            let e := mkEntry (Reader e) true (s e) in
            Returns (s e, e)
        end
    end.

Section Store.
Context `{ABI} {Σ : Type} `{!KVHost Σ}.

Record Store : Type := mkStore { kvstore : option KVStore }.

Definition Open (name : string) : M Σ (option Store * option error) :=
  let* (o, err) := OpenKVStore name in
  match err with
  | Some err =>
      let '(status, ok) := IsFastlyError err in
      if ok && (status =? FastlyStatusInval)%N then
        ret (None, Some ErrStoreNotFound)
      else if ok then
        ret (None, Some (fmt.Errorf_w_s ErrUnexpected status))
      else
        ret (None, Some err)
  | None => ret (Some (mkStore o), None)
  end.

Definition Lookup (s : option Store) (key : string)
    : M Σ (option Entry * option error) :=
  let* s := deref s in
  let* (val, err) := KVStore_Lookup (kvstore s) key in
  match err with
  | Some err =>
      let '(status, ok) := IsFastlyError err in
      if ok && (status =? FastlyStatusNone)%N then
        ret (None, Some ErrKeyNotFound)
      else if ok && (status =? FastlyStatusInval)%N then
        ret (None, Some ErrInvalidKey)
      else if ok then
        ret (None, Some (fmt.Errorf_w_s ErrUnexpected status))
      else
        ret (None, Some err)
  | None => ret (Some (mkEntry val false ""), None)
  end.

Definition Insert (s : option Store) (key : string)
    (value : option io.Reader) : M Σ (option error) :=
  let* s := deref s in
  let* err := KVStore_Insert (kvstore s) key value in
  match err with
  | Some err =>
      let '(status, ok) := IsFastlyError err in
      if ok && (status =? FastlyStatusInval)%N then
        ret (Some ErrInvalidKey)
      else if ok then
        ret (Some (fmt.Errorf_w_s ErrUnexpected status))
      else
        ret (Some err)
  | None => ret None
  end.

Definition Delete (s : option Store) (key : string) : M Σ (option error) :=
  let* s := deref s in
  let* err := KVStore_Delete (kvstore s) key in
  match err with
  | Some err =>
      let '(status, ok) := IsFastlyError err in
      if ok && (status =? FastlyStatusNone)%N then
        ret (Some ErrKeyNotFound)
      else if ok && (status =? FastlyStatusInval)%N then
        ret (Some ErrInvalidKey)
      else if ok then
        ret (Some (fmt.Errorf_w_s ErrUnexpected status))
      else
        ret (Some err)
  | None => ret None
  end.

End Store.

End kvstore.

(* ===================================================================== *)
(** ** package configstore                                                *)
(* ===================================================================== *)

Module configstore.

Definition ErrStoreNotFound : error := errors.New "config store not found".
Definition ErrStoreNameEmpty : error := errors.New "config store name was empty".
Definition ErrStoreNameInvalid : error :=
  errors.New "config store name contained invalid characters".
Definition ErrStoreNameTooLong : error := errors.New "config store name too long".
Definition ErrKeyNotFound : error := errors.New "key not found".

(** The package's [var] block: every error value it declares. *)
Definition declared_errors : list error :=
  [ErrStoreNotFound; ErrStoreNameEmpty; ErrStoreNameInvalid;
   ErrStoreNameTooLong; ErrKeyNotFound].

Section Store.
Context `{ABI} {Σ : Type} `{!DictHost Σ}.

Record Store : Type := mkStore { abiDict : option Dictionary }.

Definition Open (name : string) : M Σ (option Store * option error) :=
  let* (d, err) := OpenDictionary name in
  match err with
  | Some err =>
      let '(status, ok) := IsFastlyError err in
      if ok && (status =? FastlyStatusBadf)%N then
        ret (None, Some ErrStoreNotFound)
      else if ok && (status =? FastlyStatusNone)%N then
        ret (None, Some ErrStoreNameEmpty)
      else if ok && (status =? FastlyStatusUnsupported)%N then
        ret (None, Some ErrStoreNameTooLong)
      else if ok && (status =? FastlyStatusInval)%N then
        ret (None, Some ErrStoreNameInvalid)
      else
        ret (None, Some err)
  | None => ret (Some (mkStore d), None)
  end.

Definition Get (s : option Store) (key : string)
    : M Σ (string * option error) :=
  match s with
  | None => ret ("", Some ErrKeyNotFound)
  | Some s =>
      let* (v, err) := Dictionary_Get (abiDict s) key in
      match err with
      | Some err =>
          let '(status, ok) := IsFastlyError err in
          if ok && (status =? FastlyStatusBadf)%N then
            ret ("", Some ErrStoreNotFound)
          else if ok && (status =? FastlyStatusNone)%N then
            ret ("", Some ErrKeyNotFound)
          else
            ret ("", Some err)
      | None => ret (v, None)
      end
  end.

End Store.

End configstore.

(* ===================================================================== *)
(** ** The classification scheme, in the words of the specification       *)
(* ===================================================================== *)

Module spec.

(** A per-operation table from status code to domain error, searched
    like the [switch] it stands for: the first matching row wins. *)
Definition table : Type := list (FastlyStatus * error).

Fixpoint table_lookup (t : table) (status : FastlyStatus) : option error :=
  match t with
  | [] => None
  | (code, sentinel) :: t =>
      if (status =? code)%N then Some sentinel else table_lookup t status
  end.

Section Classification.
Context `{ABI}.

(** "surfaces as the unexpected-error kind while preserving the
    original code in its message" *)
Definition unexpected_kind (unexpected : error) (status : FastlyStatus)
    (result : error) : Prop :=
  errors.Is result unexpected = true /\
  exists pre post, Error result = pre +:+ FastlyStatus_String status +:+ post.

(** The scheme stated for both stores: a recognized status goes
    through the table, a recognized status without a row becomes
    the unexpected-error kind, anything else is passed through. *)
Definition classified (t : table) (unexpected : error)
    (err result : error) : Prop :=
  match IsFastlyError err with
  | (status, true) =>
      match table_lookup t status with
      | Some sentinel => result = sentinel
      | None => unexpected_kind unexpected status result
      end
  | (_, false) => result = err
  end.

(** The scheme without an unexpected-error kind: whatever has no row
    in the table is passed through. *)
Definition classified_or_raw (t : table) (err result : error) : Prop :=
  match IsFastlyError err with
  | (status, true) =>
      match table_lookup t status with
      | Some sentinel => result = sentinel
      | None => result = err
      end
  | (_, false) => result = err
  end.

Definition kv_Open_table : table :=
  [(FastlyStatusInval, kvstore.ErrStoreNotFound)].
Definition kv_Lookup_table : table :=
  [(FastlyStatusNone, kvstore.ErrKeyNotFound);
   (FastlyStatusInval, kvstore.ErrInvalidKey)].
Definition kv_Insert_table : table :=
  [(FastlyStatusInval, kvstore.ErrInvalidKey)].
Definition kv_Delete_table : table :=
  [(FastlyStatusNone, kvstore.ErrKeyNotFound);
   (FastlyStatusInval, kvstore.ErrInvalidKey)].
Definition config_Open_table : table :=
  [(FastlyStatusBadf, configstore.ErrStoreNotFound);
   (FastlyStatusNone, configstore.ErrStoreNameEmpty);
   (FastlyStatusUnsupported, configstore.ErrStoreNameTooLong);
   (FastlyStatusInval, configstore.ErrStoreNameInvalid)].
Definition config_Get_table : table :=
  [(FastlyStatusBadf, configstore.ErrStoreNotFound);
   (FastlyStatusNone, configstore.ErrKeyNotFound)].

End Classification.

End spec.

(* ===================================================================== *)
(** ** Concrete hosts                                                     *)
(* ===================================================================== *)

Module hosts.

(** One ABI: the status numbers 2, 3, 5 and 10, a status printed as
    its number, and [IsFastlyError] as a type assertion. *)
Definition abi : ABI.
Proof.
  refine {|
    FastlyStatusNone := 10%N;
    FastlyStatusInval := 2%N;
    FastlyStatusBadf := 3%N;
    FastlyStatusUnsupported := 5%N;
    FastlyStatus_String := fun status => pretty status;
    FastlyError_Error := fun status => "Fastly error: " +:+ pretty status;
    IsFastlyError := fun err =>
      match err with
      | FastlyError status => (status, true)
      | _ => (0%N, false)
      end
  |}.
  repeat constructor; rewrite ?elem_of_cons, ?elem_of_nil;
    intros ?; intuition discriminate.
Defined.

(** A KV host on which every call fails with [e]. *)
Definition failing_kv (e : error) : KVHost unit := {|
  KVStore := unit;
  OpenKVStore := fun _ => ret (None, Some e);
  KVStore_Lookup := fun _ _ => ret (None, Some e);
  KVStore_Insert := fun _ _ _ => ret (Some e);
  KVStore_Delete := fun _ _ => ret (Some e)
|}.

(** A config host on which every call fails with [e]. *)
Definition failing_dict (e : error) : DictHost unit := {|
  Dictionary := unit;
  OpenDictionary := fun _ => ret (None, Some e);
  Dictionary_Get := fun _ _ => ret (""%string, Some e)
|}.

(** An entry over a stream whose first [Read] fails and whose second
    [Read] delivers the content. *)
Definition flaky_entry : kvstore.Entry :=
  kvstore.mkEntry
    (Some (io.mkReader [([], Some (errors.New "connection reset"));
                        (list_byte_of_string "x", None)] 0))
    false "".

(** An entry over a stream that delivers a part of the content and then
    fails. *)
Definition broken_entry : kvstore.Entry :=
  kvstore.mkEntry
    (Some (io.mkReader [(list_byte_of_string "par", None);
                        ([], Some (errors.New "connection reset"))] 0))
    false "".

(** An entry over the stream of the bytes of "world". *)
Definition world_entry : kvstore.Entry :=
  kvstore.mkEntry (Some (io.NewReader (list_byte_of_string "world"))) false "".

(** The state of the idealized KV host: a map from store names to
    key/value maps. *)
Abbreviation ideal_state := (gmap string (gmap string (list byte))).

Section Ideal.
Context `{ABI}.

(** Modelled from the spec: [open_store] of the host ABI contract,
    which is not in the sources.  A handle is the name of its
    store; an unknown store name is the status INVAL. *)
Definition ideal_open (name : string)
    : M ideal_state (option string * option error) :=
  fun st =>
    match st !! name with
    | Some _ => Returns ((Some name, None), st)
    | None => Returns ((None, Some (FastlyError FastlyStatusInval)), st)
    end.

(** The store a handle stands for, if there is one. *)
Definition ideal_store (h : option string) (st : ideal_state)
    : option (string * gmap string (list byte)) :=
  match h with
  | Some name =>
      match st !! name with
      | Some m => Some (name, m)
      | None => None
      end
  | None => None
  end.

(** Modelled from the spec: [lookup] of the host ABI contract.  The
    stored bytes come back as a fresh stream; no value is the
    status NONE ("absent"), a handle without a store BADF. *)
Definition ideal_lookup (h : option string) (key : string)
    : M ideal_state (option io.Reader * option error) :=
  fun st =>
    match ideal_store h st with
    | Some (_, m) =>
        match m !! key with
        | Some v => Returns ((Some (io.NewReader v), None), st)
        | None => Returns ((None, Some (FastlyError FastlyStatusNone)), st)
        end
    | None => Returns ((None, Some (FastlyError FastlyStatusBadf)), st)
    end.

(** Modelled from the spec: [insert] of the host ABI contract.  The
    value stream is consumed once, fully, by the host; a read
    failure of the stream is handed back as it is. *)
Definition ideal_insert (h : option string) (key : string)
    (value : option io.Reader) : M ideal_state (option error) :=
  fun st =>
    match ideal_store h st with
    | Some (name, m) =>
        match value with
        | Some r =>
            match io.ReadAll r with
            | ((b, None), _) =>
                Returns (None, <[name := <[key := b]> m]> st)
            | ((_, Some e), _) => Returns (Some e, st)
            end
        | None => Panics
        end
    | None => Returns (Some (FastlyError FastlyStatusBadf), st)
    end.

(** Modelled from the spec: [delete] of the host ABI contract. *)
Definition ideal_delete (h : option string) (key : string)
    : M ideal_state (option error) :=
  fun st =>
    match ideal_store h st with
    | Some (name, m) =>
        match m !! key with
        | Some _ => Returns (None, <[name := delete key m]> st)
        | None => Returns (Some (FastlyError FastlyStatusNone), st)
        end
    | None => Returns (Some (FastlyError FastlyStatusBadf), st)
    end.

(** Modelled from the spec: the idealized host, a key/value map per
    store. *)
Definition ideal_kv : KVHost ideal_state := {|
  KVStore := string;
  OpenKVStore := ideal_open;
  KVStore_Lookup := ideal_lookup;
  KVStore_Insert := ideal_insert;
  KVStore_Delete := ideal_delete
|}.

End Ideal.

End hosts.

(* ===================================================================== *)
(** ** Basic facts                                                        *)
(* ===================================================================== *)

Import spec.

Section StatusFacts.
Context `{ABI}.

Lemma FastlyStatus_neq :
  FastlyStatusBadf <> FastlyStatusNone /\
  FastlyStatusBadf <> FastlyStatusUnsupported /\
  FastlyStatusBadf <> FastlyStatusInval /\
  FastlyStatusNone <> FastlyStatusUnsupported /\
  FastlyStatusNone <> FastlyStatusInval /\
  FastlyStatusUnsupported <> FastlyStatusInval.
Proof.
  pose proof FastlyStatus_distinct as D.
  apply NoDup_cons in D as [B D].
  apply NoDup_cons in D as [N D].
  apply NoDup_cons in D as [U _].
  set_solver.
Qed.

(** What [fmt.Errorf("%w (%s)", ErrUnexpected, status)] is. *)
Lemma Errorf_unexpected status :
  fmt.Errorf_w_s kvstore.ErrUnexpected status =
  wrapError ("kvstore: unexpected error (" +:+ FastlyStatus_String status +:+ ")")
            kvstore.ErrUnexpected.
Proof. reflexivity. Qed.

Lemma Errorf_unexpected_kind status :
  unexpected_kind kvstore.ErrUnexpected status
    (fmt.Errorf_w_s kvstore.ErrUnexpected status).
Proof.
  split; [reflexivity |].
  exists "kvstore: unexpected error (", ")". reflexivity.
Qed.

End StatusFacts.

(** Unfold a wrapper down to the host call named by hypothesis [Hcall],
    then split on what [IsFastlyError] says and on every status test. *)
Ltac run_wrapper Hcall :=
  cbv beta delta [kvstore.Open kvstore.Lookup kvstore.Insert kvstore.Delete
                  configstore.Open configstore.Get bind deref ret] in *;
  cbn beta iota in *;
  try rewrite Hcall.

Ltac split_status :=
  repeat match goal with
         | |- context [N.eqb ?a ?b] => destruct (N.eqb_spec a b); subst
         | H : context [N.eqb ?a ?b] |- _ => destruct (N.eqb_spec a b); subst
         end;
  cbn [andb] in *.

(* ===================================================================== *)
(** ** kvstore.Open                                                       *)
(* ===================================================================== *)

Section KVOpen.
Context `{ABI} {Σ : Type} `{!KVHost Σ}.

Lemma kv_Open_fails name st o err st' :
  OpenKVStore name st = Returns ((o, Some err), st') ->
  exists r, kvstore.Open name st = Returns ((None, Some r), st') /\
            classified kv_Open_table kvstore.ErrUnexpected err r.
Proof.
  intros Hcall. run_wrapper Hcall. unfold classified, kv_Open_table.
  destruct (IsFastlyError err) as [status [|]]; cbn; split_status;
    eauto using Errorf_unexpected_kind.
Qed.

End KVOpen.

(** C5. kvstore.Open: when the host call fails with the status INVAL the
    result is [ErrStoreNotFound]; with any other recognized status it is
    an error that wraps [ErrUnexpected] and carries the status in its
    message; with an error that is no host status it is that error
    itself.  When the host call succeeds the result is a non-nil Store
    and a nil error. *)
Theorem C5_kv_Open `{ABI} {Σ : Type} `{!KVHost Σ}
    (name : string) (st st' : Σ) (o : option KVStore) (err : option error) :
  OpenKVStore name st = Returns ((o, err), st') ->
  match err with
  | Some err =>
      exists r, kvstore.Open name st = Returns ((None, Some r), st') /\
        (IsFastlyError err = (FastlyStatusInval, true) ->
           r = kvstore.ErrStoreNotFound) /\
        (forall status, IsFastlyError err = (status, true) ->
           status <> FastlyStatusInval ->
           r = wrapError ("kvstore: unexpected error (" +:+
                          FastlyStatus_String status +:+ ")")
                         kvstore.ErrUnexpected /\
           errors.Is r kvstore.ErrUnexpected = true) /\
        (snd (IsFastlyError err) = false -> r = err)
  | None =>
      exists s, kvstore.Open name st = Returns ((Some s, None), st') /\
                kvstore.kvstore s = o
  end.
Proof.
  intros Hcall. destruct err as [err|].
  - run_wrapper Hcall.
    destruct (IsFastlyError err) as [status [|]]; cbn; split_status;
      eexists; (split; [reflexivity |]); repeat split;
      intros; simplify_eq/=; solve [congruence | reflexivity].
  - run_wrapper Hcall. eexists; split; reflexivity.
Qed.

(** The four cases of C5 on concrete hosts: INVAL, another status (BADF),
    an error that is no status, and a host whose store exists. *)
Lemma C5_kv_Open_witness :
  @kvstore.Open hosts.abi unit (hosts.failing_kv (FastlyError 2%N)) "s" tt
    = Returns ((None, Some kvstore.ErrStoreNotFound), tt) /\
  @kvstore.Open hosts.abi unit (hosts.failing_kv (FastlyError 3%N)) "s" tt
    = Returns ((None, Some (wrapError "kvstore: unexpected error (3)"
                                      kvstore.ErrUnexpected)), tt) /\
  @kvstore.Open hosts.abi unit (hosts.failing_kv (errorString "link down")) "s" tt
    = Returns ((None, Some (errorString "link down")), tt) /\
  @kvstore.Open hosts.abi _ (@hosts.ideal_kv hosts.abi) "s" {["s" := ∅]}
    = Returns ((Some (@kvstore.mkStore _ (@hosts.ideal_kv hosts.abi) (Some "s")), None),
               {["s" := ∅]}).
Proof.
  split; [| split; [| split]].
  - destruct (@C5_kv_Open hosts.abi unit (hosts.failing_kv (FastlyError 2%N))
                "s" tt tt None (Some (FastlyError 2%N)) eq_refl)
      as (r & -> & Hinval & _).
    now rewrite (Hinval eq_refl).
  - destruct (@C5_kv_Open hosts.abi unit (hosts.failing_kv (FastlyError 3%N))
                "s" tt tt None (Some (FastlyError 3%N)) eq_refl)
      as (r & -> & _ & Hother & _).
    destruct (Hother 3%N eq_refl) as [-> _]; [discriminate | reflexivity].
  - destruct (@C5_kv_Open hosts.abi unit (hosts.failing_kv (errorString "link down"))
                "s" tt tt None (Some (errorString "link down")) eq_refl)
      as (r & -> & _ & _ & Hraw).
    now rewrite (Hraw eq_refl).
  - assert (Hcall : @OpenKVStore _ (@hosts.ideal_kv hosts.abi) "s" {["s" := ∅]}
                    = Returns ((Some "s", None), {["s" := ∅]})).
    { cbn. unfold hosts.ideal_open. now rewrite lookup_singleton_eq. }
    destruct (@C5_kv_Open hosts.abi _ (@hosts.ideal_kv hosts.abi)
                "s" {["s" := ∅]} {["s" := ∅]} (Some "s") None Hcall)
      as (s & -> & Hs).
    destruct s; cbn in Hs; now subst.
Defined.

(* ===================================================================== *)
(** ** kvstore.Lookup, Insert, Delete                                     *)
(* ===================================================================== *)

Section KVOps.
Context `{ABI} {Σ : Type} `{!KVHost Σ}.

Lemma kv_Lookup_fails s key st val err st' :
  KVStore_Lookup (kvstore.kvstore s) key st = Returns ((val, Some err), st') ->
  exists r, kvstore.Lookup (Some s) key st = Returns ((None, Some r), st') /\
            classified kv_Lookup_table kvstore.ErrUnexpected err r.
Proof.
  intros Hcall. run_wrapper Hcall. unfold classified, kv_Lookup_table.
  destruct (IsFastlyError err) as [status [|]]; cbn; split_status;
    eauto using Errorf_unexpected_kind.
Qed.

Lemma kv_Insert_fails s key value st err st' :
  KVStore_Insert (kvstore.kvstore s) key value st = Returns (Some err, st') ->
  exists r, kvstore.Insert (Some s) key value st = Returns (Some r, st') /\
            classified kv_Insert_table kvstore.ErrUnexpected err r.
Proof.
  intros Hcall. run_wrapper Hcall. unfold classified, kv_Insert_table.
  destruct (IsFastlyError err) as [status [|]]; cbn; split_status;
    eauto using Errorf_unexpected_kind.
Qed.

Lemma kv_Delete_fails s key st err st' :
  KVStore_Delete (kvstore.kvstore s) key st = Returns (Some err, st') ->
  exists r, kvstore.Delete (Some s) key st = Returns (Some r, st') /\
            classified kv_Delete_table kvstore.ErrUnexpected err r.
Proof.
  intros Hcall. run_wrapper Hcall. unfold classified, kv_Delete_table.
  destruct (IsFastlyError err) as [status [|]]; cbn; split_status;
    eauto using Errorf_unexpected_kind.
Qed.

Lemma kv_Lookup_succeeds s key st val st' :
  KVStore_Lookup (kvstore.kvstore s) key st = Returns ((val, None), st') ->
  kvstore.Lookup (Some s) key st =
  Returns ((Some (kvstore.mkEntry val false ""), None), st').
Proof. intros Hcall. now run_wrapper Hcall. Qed.

Lemma kv_Insert_succeeds s key value st st' :
  KVStore_Insert (kvstore.kvstore s) key value st = Returns (None, st') ->
  kvstore.Insert (Some s) key value st = Returns (None, st').
Proof. intros Hcall. now run_wrapper Hcall. Qed.

(** The methods of the KV store dereference their receiver: on a nil
    Store they panic. *)
Lemma kv_Lookup_nil key st : kvstore.Lookup None key st = Panics.
Proof. reflexivity. Qed.

End KVOps.

(* ===================================================================== *)
(** ** configstore.Open, Get                                              *)
(* ===================================================================== *)

Section Config.
Context `{ABI} {Σ : Type} `{!DictHost Σ}.

Lemma config_Open_fails name st d err st' :
  OpenDictionary name st = Returns ((d, Some err), st') ->
  exists r, configstore.Open name st = Returns ((None, Some r), st') /\
            classified_or_raw config_Open_table err r.
Proof.
  intros Hcall. run_wrapper Hcall. unfold classified_or_raw, config_Open_table.
  destruct (IsFastlyError err) as [status [|]]; cbn; split_status; eauto.
Qed.

Lemma config_Get_fails s key st v err st' :
  Dictionary_Get (configstore.abiDict s) key st = Returns ((v, Some err), st') ->
  exists r, configstore.Get (Some s) key st = Returns (("", Some r), st') /\
            classified_or_raw config_Get_table err r.
Proof.
  intros Hcall. run_wrapper Hcall. unfold classified_or_raw, config_Get_table.
  destruct (IsFastlyError err) as [status [|]]; cbn; split_status; eauto.
Qed.

End Config.

(** C3. configstore.Get on a nil Store: for every key, whatever the host
    and its state, the call returns (it does not panic on the nil
    receiver), the result is the empty string with [ErrKeyNotFound], and
    the host state is as it was before. *)
Theorem C3_config_Get_nil_receiver `{ABI} {Σ : Type} `{!DictHost Σ}
    (key : string) (st : Σ) :
  configstore.Get None key st =
  Returns (("", Some configstore.ErrKeyNotFound), st).
Proof. reflexivity. Qed.

(** C4. configstore.Open: when the host call fails, the status BADF gives
    [ErrStoreNotFound], NONE gives [ErrStoreNameEmpty], UNSUPPORTED gives
    [ErrStoreNameTooLong] and INVAL gives [ErrStoreNameInvalid]; these
    four errors are pairwise different; every other failure (another
    status, or an error that is no status) gives the raw error. *)
Theorem C4_config_Open_errors `{ABI} {Σ : Type} `{!DictHost Σ}
    (name : string) (st st' : Σ) (d : option Dictionary) (err : error) :
  OpenDictionary name st = Returns ((d, Some err), st') ->
  exists r, configstore.Open name st = Returns ((None, Some r), st') /\
    (IsFastlyError err = (FastlyStatusBadf, true) ->
       r = configstore.ErrStoreNotFound) /\
    (IsFastlyError err = (FastlyStatusNone, true) ->
       r = configstore.ErrStoreNameEmpty) /\
    (IsFastlyError err = (FastlyStatusUnsupported, true) ->
       r = configstore.ErrStoreNameTooLong) /\
    (IsFastlyError err = (FastlyStatusInval, true) ->
       r = configstore.ErrStoreNameInvalid) /\
    (snd (IsFastlyError err) = false \/
     fst (IsFastlyError err) ∉ [FastlyStatusBadf; FastlyStatusNone;
                                FastlyStatusUnsupported; FastlyStatusInval] ->
       r = err) /\
    NoDup [configstore.ErrStoreNotFound; configstore.ErrStoreNameEmpty;
           configstore.ErrStoreNameTooLong; configstore.ErrStoreNameInvalid].
Proof.
  intros Hcall. run_wrapper Hcall.
  destruct FastlyStatus_neq as (? & ? & ? & ? & ? & ?).
  assert (NoDup [configstore.ErrStoreNotFound; configstore.ErrStoreNameEmpty;
                 configstore.ErrStoreNameTooLong; configstore.ErrStoreNameInvalid])
    by (apply (bool_decide_unpack _); vm_compute; exact I).
  destruct (IsFastlyError err) as [status [|]]; cbn; split_status;
    eexists; (split; [reflexivity |]);
    repeat match goal with |- _ /\ _ => split end;
    try assumption; intros Hcase; simplify_eq/=; try reflexivity; try congruence;
    destruct Hcase as [? | Hn]; try discriminate; try reflexivity;
    exfalso; apply Hn; solve [repeat constructor].
Qed.

(** C4 on concrete hosts: each of the four statuses, a fifth status, and
    an error that is no status. *)
Lemma C4_config_Open_errors_witness :
  let run e := @configstore.Open hosts.abi unit (hosts.failing_dict e) "s" tt in
  run (FastlyError 3%N) = Returns ((None, Some configstore.ErrStoreNotFound), tt) /\
  run (FastlyError 10%N) = Returns ((None, Some configstore.ErrStoreNameEmpty), tt) /\
  run (FastlyError 5%N) = Returns ((None, Some configstore.ErrStoreNameTooLong), tt) /\
  run (FastlyError 2%N) = Returns ((None, Some configstore.ErrStoreNameInvalid), tt) /\
  run (FastlyError 1%N) = Returns ((None, Some (FastlyError 1%N)), tt) /\
  run (errorString "link down") = Returns ((None, Some (errorString "link down")), tt).
Proof.
  intros run; subst run; cbv beta.
  pose proof (fun e => @C4_config_Open_errors hosts.abi unit (hosts.failing_dict e)
                         "s" tt tt None e eq_refl) as C4.
  split; [| split; [| split; [| split; [| split]]]].
  - destruct (C4 (FastlyError 3%N)) as (r & -> & Hr & _). now rewrite (Hr eq_refl).
  - destruct (C4 (FastlyError 10%N)) as (r & -> & _ & Hr & _). now rewrite (Hr eq_refl).
  - destruct (C4 (FastlyError 5%N)) as (r & -> & _ & _ & Hr & _).
    now rewrite (Hr eq_refl).
  - destruct (C4 (FastlyError 2%N)) as (r & -> & _ & _ & _ & Hr & _).
    now rewrite (Hr eq_refl).
  - destruct (C4 (FastlyError 1%N)) as (r & -> & _ & _ & _ & _ & Hr & _).
    rewrite Hr; [reflexivity |]. right. cbn.
    rewrite !not_elem_of_cons. repeat split; try discriminate. apply not_elem_of_nil.
  - destruct (C4 (errorString "link down")) as (r & -> & _ & _ & _ & _ & Hr & _).
    rewrite Hr; [reflexivity |]. now left.
Defined.

(** C10. The config store declares no unexpected-error value: its error
    values are the five of [declared_errors], none of them the KV
    store's [ErrUnexpected] and none of them a wrapping error.  In Open
    and in Get, a failure of the host call whose status is not one of
    the operation's cases is returned as it is; so is, in Get, the
    recognized status INVAL. *)
Theorem C10_config_unlisted_errors_verbatim `{ABI}
    {Σ : Type} `{!DictHost Σ} (err : error) :
  Forall (fun e => e <> kvstore.ErrUnexpected /\
                   forall msg inner, e <> wrapError msg inner)
         configstore.declared_errors /\
  (forall name st d st',
     OpenDictionary name st = Returns ((d, Some err), st') ->
     exists r, configstore.Open name st = Returns ((None, Some r), st') /\
       (r ∈ configstore.declared_errors \/ r = err) /\
       (~ (snd (IsFastlyError err) = true /\
           fst (IsFastlyError err) ∈ [FastlyStatusBadf; FastlyStatusNone;
                                      FastlyStatusUnsupported; FastlyStatusInval]) ->
        r = err)) /\
  (forall s key st v st',
     Dictionary_Get (configstore.abiDict s) key st = Returns ((v, Some err), st') ->
     exists r, configstore.Get (Some s) key st = Returns (("", Some r), st') /\
       (r ∈ configstore.declared_errors \/ r = err) /\
       (~ (snd (IsFastlyError err) = true /\
           fst (IsFastlyError err) ∈ [FastlyStatusBadf; FastlyStatusNone]) ->
        r = err) /\
       (IsFastlyError err = (FastlyStatusInval, true) -> r = err)).
Proof.
  destruct FastlyStatus_neq as (? & ? & ? & ? & ? & ?).
  split; [| split].
  - unfold configstore.declared_errors.
    repeat (apply Forall_cons; split; [split; [discriminate | discriminate] |]).
    apply Forall_nil. exact I.
  - intros name st d st' Hcall. run_wrapper Hcall.
    unfold configstore.declared_errors.
    destruct (IsFastlyError err) as [status [|]]; cbn; split_status;
      eexists; (split; [reflexivity |]); (split; [| intros Hn]);
      try (right; reflexivity); try reflexivity;
      try (left; solve [repeat constructor]);
      try (exfalso; apply Hn; split; [reflexivity | solve [repeat constructor]]).
  - intros s key st v st' Hcall. run_wrapper Hcall.
    unfold configstore.declared_errors.
    destruct (IsFastlyError err) as [status [|]]; cbn; split_status;
      eexists; (split; [reflexivity |]);
      (split; [| split; [intros Hn | intros Hi]]);
      try (right; reflexivity); try reflexivity;
      try (left; solve [repeat constructor]);
      try (exfalso; apply Hn; split; [reflexivity | solve [repeat constructor]]);
      simplify_eq/=; congruence.
Qed.

(** C10 on concrete hosts: the statuses INVAL (in Get) and 1 (in Open and
    in Get) and an error that is no status come back as they are. *)
Lemma C10_config_unlisted_errors_verbatim_witness :
  @configstore.Get hosts.abi unit (hosts.failing_dict (FastlyError 2%N))
     (Some (configstore.mkStore None)) "k" tt
    = Returns (("", Some (FastlyError 2%N)), tt) /\
  @configstore.Open hosts.abi unit (hosts.failing_dict (FastlyError 1%N)) "s" tt
    = Returns ((None, Some (FastlyError 1%N)), tt) /\
  @configstore.Get hosts.abi unit (hosts.failing_dict (errorString "link down"))
     (Some (configstore.mkStore None)) "k" tt
    = Returns (("", Some (errorString "link down")), tt).
Proof.
  pose proof (fun e => @C10_config_unlisted_errors_verbatim hosts.abi unit
                         (hosts.failing_dict e) e) as C10.
  split; [| split].
  - destruct (C10 (FastlyError 2%N)) as (_ & _ & HGet).
    destruct (HGet (configstore.mkStore None) "k" tt ""%string tt eq_refl)
      as (r & -> & _ & _ & Hr).
    now rewrite (Hr eq_refl).
  - destruct (C10 (FastlyError 1%N)) as (_ & HOpen & _).
    destruct (HOpen "s" tt None tt eq_refl) as (r & -> & _ & Hr).
    rewrite Hr; [reflexivity |]. cbn. intros [_ Hin].
    rewrite !elem_of_cons, elem_of_nil in Hin.
    destruct Hin as [? | [? | [? | [? | []]]]]; discriminate.
  - destruct (C10 (errorString "link down")) as (_ & _ & HGet).
    destruct (HGet (configstore.mkStore None) "k" tt ""%string tt eq_refl)
      as (r & -> & _ & Hr & _).
    rewrite Hr; [reflexivity |]. cbn. intros [? _]. discriminate.
Defined.

(** C6. kvstore.Delete classifies a failure of its host call as Lookup
    does: the status NONE gives [ErrKeyNotFound] (which is not an
    unexpected error), INVAL gives [ErrInvalidKey], any other recognized
    status gives an error that wraps [ErrUnexpected], an error that is no
    host status is returned as it is; and Lookup, whenever its host call
    fails with the same error, returns the same error as Delete. *)
Theorem C6_kv_Delete_as_Lookup `{ABI} {Σ : Type} `{!KVHost Σ}
    (s : kvstore.Store) (key : string) (st st' : Σ) (err : error) :
  KVStore_Delete (kvstore.kvstore s) key st = Returns (Some err, st') ->
  exists r, kvstore.Delete (Some s) key st = Returns (Some r, st') /\
    (IsFastlyError err = (FastlyStatusNone, true) ->
       r = kvstore.ErrKeyNotFound /\
       errors.Is r kvstore.ErrUnexpected = false) /\
    (IsFastlyError err = (FastlyStatusInval, true) ->
       r = kvstore.ErrInvalidKey) /\
    (forall status, IsFastlyError err = (status, true) ->
       status <> FastlyStatusNone -> status <> FastlyStatusInval ->
       r = wrapError ("kvstore: unexpected error (" +:+
                      FastlyStatus_String status +:+ ")")
                     kvstore.ErrUnexpected /\
       errors.Is r kvstore.ErrUnexpected = true) /\
    (snd (IsFastlyError err) = false -> r = err) /\
    (forall key0 st0 val st0',
       KVStore_Lookup (kvstore.kvstore s) key0 st0 = Returns ((val, Some err), st0') ->
       kvstore.Lookup (Some s) key0 st0 = Returns ((None, Some r), st0')).
Proof.
  intros Hcall. run_wrapper Hcall.
  destruct FastlyStatus_neq as (? & ? & ? & ? & ? & ?).
  destruct (IsFastlyError err) as [status [|]] eqn:E; cbn; split_status;
    eexists; (split; [reflexivity |]);
    repeat match goal with |- _ /\ _ => split end;
    try (intros key0 st0 val st0' Hcall0; rewrite Hcall0, E; cbn; split_status;
         try congruence; reflexivity);
    intros; simplify_eq/=; solve [congruence | reflexivity | split; reflexivity].
Qed.

(** C6 on concrete hosts: Delete and Lookup against a host that fails
    with NONE, with INVAL, with BADF, and with an error that is no
    status. *)
Lemma C6_kv_Delete_as_Lookup_witness :
  let del e := @kvstore.Delete hosts.abi unit (hosts.failing_kv e)
                 (Some (@kvstore.mkStore unit (hosts.failing_kv e) None)) "k" tt in
  let look e := @kvstore.Lookup hosts.abi unit (hosts.failing_kv e)
                 (Some (@kvstore.mkStore unit (hosts.failing_kv e) None)) "k" tt in
  (del (FastlyError 10%N) = Returns (Some kvstore.ErrKeyNotFound, tt) /\
   look (FastlyError 10%N) = Returns ((None, Some kvstore.ErrKeyNotFound), tt)) /\
  del (FastlyError 2%N) = Returns (Some kvstore.ErrInvalidKey, tt) /\
  del (FastlyError 3%N) =
    Returns (Some (wrapError "kvstore: unexpected error (3)" kvstore.ErrUnexpected), tt) /\
  del (errorString "link down") = Returns (Some (errorString "link down"), tt).
Proof.
  intros del look; subst del look; cbv beta.
  pose proof (fun e => @C6_kv_Delete_as_Lookup hosts.abi unit (hosts.failing_kv e)
                         (@kvstore.mkStore unit (hosts.failing_kv e) None)
                         "k" tt tt e eq_refl) as C6.
  split; [| split; [| split]].
  - destruct (C6 (FastlyError 10%N)) as (r & -> & Hr & _ & _ & _ & HL).
    rewrite (HL "k" tt None tt eq_refl).
    destruct (Hr eq_refl) as [-> _]. split; reflexivity.
  - destruct (C6 (FastlyError 2%N)) as (r & -> & _ & Hr & _).
    now rewrite (Hr eq_refl).
  - destruct (C6 (FastlyError 3%N)) as (r & -> & _ & _ & Hr & _).
    destruct (Hr 3%N eq_refl) as [-> _]; [discriminate | discriminate | reflexivity].
  - destruct (C6 (errorString "link down")) as (r & -> & _ & _ & _ & Hr & _).
    now rewrite (Hr eq_refl).
Defined.

(** C1, as stated, fails on the config store: Get against a host that
    fails with the recognized status INVAL, which has no row in Get's
    table, returns that host error as it is; the result is not of an
    unexpected-error kind, whichever [errors.New] value is taken for
    "the unexpected error". *)
Lemma C1_config_Get_unmapped_status_counterexample :
  let err := FastlyError 2%N in
  @IsFastlyError hosts.abi err = (@FastlyStatusInval hosts.abi, true) /\
  @configstore.Get hosts.abi unit (hosts.failing_dict err)
     (Some (configstore.mkStore None)) "k" tt = Returns (("", Some err), tt) /\
  ~ @classified hosts.abi (@config_Get_table hosts.abi) kvstore.ErrUnexpected err err /\
  ~ exists text, @classified hosts.abi (@config_Get_table hosts.abi)
                   (errors.New text) err err.
Proof.
  cbv zeta. split; [reflexivity | split; [reflexivity | split]].
  - intros [HIs _]. discriminate HIs.
  - intros [text [HIs _]]. discriminate HIs.
Qed.

(** C1, amended.  In the KV store (Open, Lookup, Insert, Delete) a failure
    of the host call is classified by the scheme of the specification: a
    recognized status goes through the operation's table, a recognized
    status without a row becomes an error that wraps [ErrUnexpected] and
    has the status in its message, an error that is no host status is
    returned as it is.  In the config store (Open, Get) a recognized
    status goes through the operation's table, and every other error,
    a recognized status without a row included, is returned as it is. *)
Theorem C1_classification_amended `{ABI}
    {Σk : Type} `{!KVHost Σk} {Σd : Type} `{!DictHost Σd} (err : error) :
  (forall name st o st',
     OpenKVStore name st = Returns ((o, Some err), st') ->
     exists r, kvstore.Open name st = Returns ((None, Some r), st') /\
               classified kv_Open_table kvstore.ErrUnexpected err r) /\
  (forall s key st val st',
     KVStore_Lookup (kvstore.kvstore s) key st = Returns ((val, Some err), st') ->
     exists r, kvstore.Lookup (Some s) key st = Returns ((None, Some r), st') /\
               classified kv_Lookup_table kvstore.ErrUnexpected err r) /\
  (forall s key value st st',
     KVStore_Insert (kvstore.kvstore s) key value st = Returns (Some err, st') ->
     exists r, kvstore.Insert (Some s) key value st = Returns (Some r, st') /\
               classified kv_Insert_table kvstore.ErrUnexpected err r) /\
  (forall s key st st',
     KVStore_Delete (kvstore.kvstore s) key st = Returns (Some err, st') ->
     exists r, kvstore.Delete (Some s) key st = Returns (Some r, st') /\
               classified kv_Delete_table kvstore.ErrUnexpected err r) /\
  (forall name st d st',
     OpenDictionary name st = Returns ((d, Some err), st') ->
     exists r, configstore.Open name st = Returns ((None, Some r), st') /\
               classified_or_raw config_Open_table err r) /\
  (forall s key st v st',
     Dictionary_Get (configstore.abiDict s) key st = Returns ((v, Some err), st') ->
     exists r, configstore.Get (Some s) key st = Returns (("", Some r), st') /\
               classified_or_raw config_Get_table err r).
Proof.
  repeat match goal with |- _ /\ _ => split end; intros.
  - eapply kv_Open_fails; eassumption.
  - eapply kv_Lookup_fails; eassumption.
  - eapply kv_Insert_fails; eassumption.
  - eapply kv_Delete_fails; eassumption.
  - eapply config_Open_fails; eassumption.
  - eapply config_Get_fails; eassumption.
Qed.

(** The amended C1 on concrete hosts that fail with the status 7, which
    no table has a row for: the KV store's Lookup gives an error that
    wraps [ErrUnexpected], the config store's Get gives the host error
    itself. *)
Lemma C1_classification_amended_witness :
  let err := FastlyError 7%N in
  (exists r,
     @kvstore.Lookup hosts.abi unit (hosts.failing_kv err)
        (Some (@kvstore.mkStore unit (hosts.failing_kv err) None)) "k" tt
       = Returns ((None, Some r), tt) /\
     errors.Is r kvstore.ErrUnexpected = true) /\
  (exists r,
     @configstore.Get hosts.abi unit (hosts.failing_dict err)
        (Some (configstore.mkStore None)) "k" tt = Returns (("", Some r), tt) /\
     r = err).
Proof.
  cbv zeta.
  destruct (@C1_classification_amended hosts.abi unit
              (hosts.failing_kv (FastlyError 7%N)) unit
              (hosts.failing_dict (FastlyError 7%N)) (FastlyError 7%N))
    as (_ & HLookup & _ & _ & _ & HGet).
  split.
  - destruct (HLookup (@kvstore.mkStore unit (hosts.failing_kv (FastlyError 7%N)) None)
                "k" tt None tt eq_refl) as (r & Hr & Hclass).
    exists r. split; [exact Hr | exact (proj1 Hclass)].
  - destruct (HGet (configstore.mkStore None) "k" tt ""%string tt eq_refl)
      as (r & Hr & Hclass).
    exists r. split; [exact Hr | exact Hclass].
Defined.

(* ===================================================================== *)
(** ** io.ReadAll                                                         *)
(* ===================================================================== *)

(** [ReadAll_loop] is the loop over [Read]: one [Read], then stop on an
    error (EOF counting as success) or go on with the longer buffer. *)
Lemma ReadAll_loop_Read (r : io.Reader) (b : list byte) :
  io.ReadAll_loop (io.pending r) (io.reads r) b =
  let '((data, err), r') := io.Read r in
  match err with
  | Some e =>
      if decide (e = io.EOF) then (((b ++ data)%list, None), r')
      else (((b ++ data)%list, Some e), r')
  | None => io.ReadAll_loop (io.pending r') (io.reads r') (b ++ data)%list
  end.
Proof.
  destruct r as [[|[data [e|]] rest] n]; cbn; try reflexivity.
  now rewrite app_nil_r.
Qed.

(** Every [ReadAll] makes at least one [Read] call. *)
Lemma ReadAll_loop_reads p n b :
  n < io.reads (snd (io.ReadAll_loop p n b)).
Proof.
  revert n b. induction p as [|[data [e|]] rest IH]; intros n b; cbn.
  - lia.
  - destruct (decide (e = io.EOF)); cbn; lia.
  - specialize (IH (S n) (b ++ data)%list). lia.
Qed.

Lemma ReadAll_reads (r : io.Reader) :
  io.reads r < io.reads (snd (io.ReadAll r)).
Proof. apply ReadAll_loop_reads. Qed.

(** Draining a fresh reader over [v] gives [v] and no error. *)
Lemma ReadAll_NewReader (v : list byte) :
  fst (io.ReadAll (io.NewReader v)) = (v, None).
Proof. destruct v; reflexivity. Qed.

(* ===================================================================== *)
(** ** Entry.String                                                       *)
(* ===================================================================== *)

Lemma String_cached (e : kvstore.Entry) :
  kvstore.validString e = true -> kvstore.String e = Returns (kvstore.s e, e).
Proof. intros Hv. unfold kvstore.String. now rewrite Hv. Qed.

Lemma String_drained (e : kvstore.Entry) r b r' :
  kvstore.validString e = false ->
  kvstore.Reader e = Some r ->
  io.ReadAll r = ((b, None), r') ->
  kvstore.String e =
  Returns (string_of_list_byte b,
           kvstore.mkEntry (Some r') true (string_of_list_byte b)).
Proof.
  intros Hv Hr Hall. unfold kvstore.String. now rewrite Hv, Hr, Hall.
Qed.

(** A call of [String] leaves the string marked valid exactly when the
    string was cached already or the drain met no read error. *)
Lemma String_valid_iff (e e1 : kvstore.Entry) (s1 : string) :
  kvstore.String e = Returns (s1, e1) ->
  kvstore.validString e1 = true <->
  kvstore.validString e = true \/
  exists r b r', kvstore.Reader e = Some r /\ io.ReadAll r = ((b, None), r').
Proof.
  unfold kvstore.String.
  destruct (kvstore.validString e) eqn:Hv.
  - intros [= ? ?]; subst. intuition.
  - destruct (kvstore.Reader e) as [r|]; [| discriminate].
    destruct (io.ReadAll r) as [[b [err|]] r'] eqn:Hall; intros [= ? ?]; subst; cbn.
    + split; [discriminate |].
      intros [? | (r0 & b0 & r0' & [= <-] & Hall0)]; [discriminate | congruence].
    + split; [| reflexivity]. intros _. right. eauto.
Qed.

Lemma String_drain_failed (e : kvstore.Entry) r b err r' :
  kvstore.validString e = false ->
  kvstore.Reader e = Some r ->
  io.ReadAll r = ((b, Some err), r') ->
  kvstore.String e = Returns ("", kvstore.mkEntry (Some r') false (kvstore.s e)).
Proof.
  intros Hv Hr Hall. unfold kvstore.String. now rewrite Hv, Hr, Hall.
Qed.

(** C8. When the drain inside [String] fails with a read error, [String]
    returns the empty string: neither the error nor the bytes read
    before it reach the caller, and the cache fields stay as they
    were. *)
Theorem C8_String_drain_error (e : kvstore.Entry)
    (r r' : io.Reader) (b : list byte) (err : error) :
  kvstore.validString e = false ->
  kvstore.Reader e = Some r ->
  io.ReadAll r = ((b, Some err), r') ->
  kvstore.String e = Returns ("", kvstore.mkEntry (Some r') false (kvstore.s e)).
Proof. apply String_drain_failed. Qed.

(** C8 on a stream that fails after the bytes "par". *)
Lemma C8_String_drain_error_witness :
  kvstore.String hosts.broken_entry =
  Returns ("", kvstore.mkEntry (Some (io.mkReader [] 2)) false "").
Proof.
  exact (C8_String_drain_error hosts.broken_entry
           (io.mkReader [(list_byte_of_string "par", None);
                         ([], Some (errors.New "connection reset"))] 0)
           (io.mkReader [] 2) (list_byte_of_string "par")
           (errors.New "connection reset") eq_refl eq_refl eq_refl).
Defined.

(** C9. When the first call of [String] fails in the drain, nothing is
    cached: the string stays marked not valid, and the next call of
    [String] reads the underlying stream again. *)
Theorem C9_failed_String_not_cached (e : kvstore.Entry)
    (r r' : io.Reader) (b : list byte) (err : error) :
  kvstore.validString e = false ->
  kvstore.Reader e = Some r ->
  io.ReadAll r = ((b, Some err), r') ->
  exists e1,
    kvstore.String e = Returns ("", e1) /\
    kvstore.validString e1 = false /\
    kvstore.Reader e1 = Some r' /\
    exists s2 e2 r2,
      kvstore.String e1 = Returns (s2, e2) /\
      kvstore.Reader e2 = Some r2 /\
      io.reads r' < io.reads r2.
Proof.
  intros Hv Hr Hall. eexists. split; [now apply (String_drain_failed e r b err r') |].
  split; [reflexivity | split; [reflexivity |]].
  unfold kvstore.String; cbn.
  pose proof (ReadAll_reads r') as Hreads.
  destruct (io.ReadAll r') as [[b2 [err2|]] r2]; cbn in Hreads; eauto 6.
Qed.

(** C9 on a stream whose first [Read] fails. *)
Lemma C9_failed_String_not_cached_witness :
  exists e1,
    kvstore.String hosts.flaky_entry = Returns ("", e1) /\
    kvstore.validString e1 = false /\
    kvstore.Reader e1 = Some (io.mkReader [(list_byte_of_string "x", None)] 1) /\
    exists s2 e2 r2,
      kvstore.String e1 = Returns (s2, e2) /\
      kvstore.Reader e2 = Some r2 /\
      1 < io.reads r2.
Proof.
  exact (C9_failed_String_not_cached hosts.flaky_entry
           (io.mkReader [([], Some (errors.New "connection reset"));
                         (list_byte_of_string "x", None)] 0)
           (io.mkReader [(list_byte_of_string "x", None)] 1)
           [] (errors.New "connection reset") eq_refl eq_refl eq_refl).
Defined.

(** C7, as stated, fails on an entry whose first call of [String] meets
    a read error: the first call returns the empty string, the second
    call reads the stream again (two more [Read] calls) and returns
    "x". *)
Lemma C7_String_twice_counterexample :
  let e1 := kvstore.mkEntry
              (Some (io.mkReader [(list_byte_of_string "x", None)] 1)) false "" in
  let e2 := kvstore.mkEntry (Some (io.mkReader [] 3)) true "x" in
  kvstore.String hosts.flaky_entry = Returns ("", e1) /\
  kvstore.String e1 = Returns ("x", e2) /\
  "" <> "x" /\
  ~ (forall e s1 e1 s2 e2,
       kvstore.String e = Returns (s1, e1) ->
       kvstore.String e1 = Returns (s2, e2) ->
       s2 = s1 /\ kvstore.Reader e2 = kvstore.Reader e1).
Proof.
  cbv zeta. split; [reflexivity | split; [reflexivity | split; [discriminate |]]].
  intros Hidem.
  destruct (Hidem hosts.flaky_entry "" _ "x" _ eq_refl eq_refl) as [Hs _].
  discriminate Hs.
Qed.

(** C7, amended.  For every Entry whose call of [String] returns with the
    string marked valid (the string was cached already, or the drain
    met no read error), a second call returns the identical string and
    leaves the entry as it is: the underlying stream, with its count of
    [Read] calls, is not touched again. *)
Theorem C7_String_idempotent_after_success
    (e e1 : kvstore.Entry) (s1 : string) :
  kvstore.String e = Returns (s1, e1) ->
  kvstore.validString e1 = true ->
  kvstore.String e1 = Returns (s1, e1) /\
  forall s2 e2, kvstore.String e1 = Returns (s2, e2) ->
    s2 = s1 /\
    option_map io.reads (kvstore.Reader e2) = option_map io.reads (kvstore.Reader e1).
Proof.
  intros Hcall Hvalid.
  assert (Hs : kvstore.s e1 = s1).
  { unfold kvstore.String in Hcall.
    destruct (kvstore.validString e) eqn:Hv.
    - now injection Hcall as <- <-.
    - destruct (kvstore.Reader e) as [r|]; [| discriminate].
      destruct (io.ReadAll r) as [[b [err|]] r']; injection Hcall as <- <-.
      + cbn in Hvalid. congruence.
      + reflexivity. }
  rewrite (String_cached e1 Hvalid), Hs. split; [reflexivity |].
  now intros s2 e2 [= <- <-].
Qed.

(** C7, amended, on the entry over the bytes of "world": the first call
    drains the stream in two [Read] calls, the second call returns the
    same string and the entry is as before. *)
Lemma C7_String_idempotent_after_success_witness :
  let e1 := kvstore.mkEntry (Some (io.mkReader [] 2)) true "world" in
  kvstore.String hosts.world_entry = Returns ("world", e1) /\
  kvstore.String e1 = Returns ("world", e1).
Proof.
  cbv zeta. split; [reflexivity |].
  exact (proj1 (C7_String_idempotent_after_success hosts.world_entry
                  (kvstore.mkEntry (Some (io.mkReader [] 2)) true "world")
                  "world" eq_refl eq_refl)).
Defined.

(* ===================================================================== *)
(** ** Round trip through the idealized host                              *)
(* ===================================================================== *)

Section Ideal.
Context `{ABI}.

#[local] Existing Instance hosts.ideal_kv.

(** A store opened on the idealized host holds the name of an existing
    store, and opening changes nothing. *)
Lemma ideal_Open_inv name (st st1 : gmap string (gmap string (list byte))) s :
  kvstore.Open name st = Returns ((Some s, None), st1) ->
  st1 = st /\ kvstore.kvstore s = Some name /\ is_Some (st !! name).
Proof.
  unfold kvstore.Open, bind, ret. cbn. unfold hosts.ideal_open.
  destruct (st !! name) as [m|] eqn:Hm.
  - intros [= <- <-]. eauto.
  - destruct (IsFastlyError _) as [status [|]]; cbn;
      repeat destruct (_ =? _)%N; intros [=].
Qed.

End Ideal.

(** C2. On the idealized host (a key/value map per store), for a store
    opened on it, for every key [k] and every value [v]: Insert of [v]
    under [k] succeeds, the Lookup of [k] that follows succeeds, and the
    Entry it returns holds exactly the bytes of [v], as the stream it
    embeds and as the result of [String]. *)
Theorem C2_insert_lookup_roundtrip `{ABI}
    (name k : string) (v : list byte)
    (st st1 : gmap string (gmap string (list byte)))
    (s : @kvstore.Store _ hosts.ideal_kv) :
  @kvstore.Open _ _ hosts.ideal_kv name st = Returns ((Some s, None), st1) ->
  exists st2 e,
    @kvstore.Insert _ _ hosts.ideal_kv (Some s) k (Some (io.NewReader v)) st1
      = Returns (None, st2) /\
    @kvstore.Lookup _ _ hosts.ideal_kv (Some s) k st2
      = Returns ((Some e, None), st2) /\
    (exists r, kvstore.Reader e = Some r /\ fst (io.ReadAll r) = (v, None)) /\
    (exists e', kvstore.String e = Returns (string_of_list_byte v, e')).
Proof.
  intros Hopen.
  apply ideal_Open_inv in Hopen as (-> & Hs & [m Hm]).
  exists (<[name := <[k := v]> m]> st),
         (kvstore.mkEntry (Some (io.NewReader v)) false "").
  pose proof (ReadAll_NewReader v) as Hall.
  destruct (io.ReadAll (io.NewReader v)) as [[b err] r'] eqn:HReadAll.
  cbn in Hall. injection Hall as -> ->.
  split; [| split; [| split]].
  - apply kv_Insert_succeeds. cbn. unfold hosts.ideal_insert, hosts.ideal_store.
    now rewrite Hs, Hm, HReadAll.
  - apply kv_Lookup_succeeds. cbn. unfold hosts.ideal_lookup, hosts.ideal_store.
    now rewrite Hs, !lookup_insert_eq.
  - exists (io.NewReader v). split; [reflexivity |]. now rewrite HReadAll.
  - eexists. now apply (String_drained _ (io.NewReader v) v r').
Qed.

(** C2 on the store and the key of the integration test: "cat" inserted
    under "animal" is what Lookup and [String] give back. *)
Lemma C2_insert_lookup_roundtrip_witness :
  let st : gmap string (gmap string (list byte)) :=
    {["example-test-kv-store" := ∅]} in
  let s := @kvstore.mkStore _ (@hosts.ideal_kv hosts.abi)
             (Some "example-test-kv-store") in
  exists st2 e,
    @kvstore.Insert hosts.abi _ hosts.ideal_kv (Some s) "animal"
       (Some (io.NewReader (list_byte_of_string "cat"))) st = Returns (None, st2) /\
    @kvstore.Lookup hosts.abi _ hosts.ideal_kv (Some s) "animal" st2
      = Returns ((Some e, None), st2) /\
    (exists r, kvstore.Reader e = Some r /\
               fst (io.ReadAll r) = (list_byte_of_string "cat", None)) /\
    (exists e', kvstore.String e = Returns ("cat", e')).
Proof.
  cbv zeta.
  apply (@C2_insert_lookup_roundtrip hosts.abi "example-test-kv-store" "animal"
           (list_byte_of_string "cat") {["example-test-kv-store" := ∅]}).
  unfold kvstore.Open, bind, ret. cbn. unfold hosts.ideal_open.
  now rewrite lookup_singleton_eq.
Defined.

(* ===================================================================== *)
(** ** Further definitions: the Entry as a reader, the integration test   *)
(* ===================================================================== *)

(** A call that touches no host state, run inside a host call sequence. *)
Definition lift {Σ A} (o : outcome A) : M Σ A :=
  fun st =>
    match o with
    | Returns a => Returns (a, st)
    | Panics => Panics
    end.

(** [e.Read(p)] on an Entry: the method promoted from the embedded
    [io.Reader]; on a nil reader it panics. *)
Definition Entry_Read (e : kvstore.Entry)
    : outcome ((list byte * option error) * kvstore.Entry) :=
  match kvstore.Reader e with
  | None => Panics
  | Some r =>
      let '(res, r) := io.Read r in
      Returns (res, kvstore.mkEntry (Some r) (kvstore.validString e) (kvstore.s e))
  end.

(** [n] calls of [String] in a row: the strings returned and the entry
    afterwards. *)
Fixpoint String_times (n : nat) (e : kvstore.Entry)
    : outcome (list string * kvstore.Entry) :=
  match n with
  | 0 => Returns ([], e)
  | S n =>
      match kvstore.String e with
      | Returns (s, e) =>
          match String_times n e with
          | Returns (l, e) => Returns (s :: l, e)
          | Panics => Panics
          end
      | Panics => Panics
      end
  end.

Module kvstore_test.

(** What a test reports: [t.Fatal(err)], which ends the test, and
    [t.Errorf("<what>: got %q, want %q", got, want)], which does not. *)
Inductive report : Type :=
| Fatal (err : error)
| Errorf (what got want : string).

Section Test.
Context `{ABI} {Σ : Type} `{!KVHost Σ}.

(** [TestKVStore]: the reports of the test, in order; the test passes
    when there is none. *)
Definition TestKVStore : M Σ (list report) :=
  let* (store, err) := kvstore.Open "example-test-kv-store" in
  match err with
  | Some err => ret [Fatal err]
  | None =>
      let* (hello, err) := kvstore.Lookup store "hello" in
      match err with
      | Some err => ret [Fatal err]
      | None =>
          let* hello := deref hello in
          let* (got, _) := lift (kvstore.String hello) in
          let t := if decide (got = "world") then []
                   else [Errorf "Lookup" got "world"] in
          let* err := kvstore.Insert store "animal"
                        (Some (io.NewReader (list_byte_of_string "cat"))) in
          match err with
          | Some err => ret (t ++ [Fatal err])%list
          | None =>
              let* (animal, err) := kvstore.Lookup store "animal" in
              match err with
              | Some err => ret (t ++ [Fatal err])%list
              | None =>
                  let* animal := deref animal in
                  let* (got, _) := lift (kvstore.String animal) in
                  ret (t ++ if decide (got = "cat") then []
                            else [Errorf "Insert" got "cat"])%list
              end
          end
      end
  end.

End Test.

End kvstore_test.

(* ===================================================================== *)
(** ** Shape of the results                                               *)
(* ===================================================================== *)

(** X1. kvstore.Insert and kvstore.Delete on a Store swallow no failure
    and invent none: when the call returns, the host call returned, in
    the same host state, and the result is nil exactly when the host's
    error was nil. *)
Theorem X1_kv_Insert_Delete_nil_iff `{ABI} {Σ : Type} `{!KVHost Σ}
    (s : kvstore.Store) (key : string) :
  (forall value st r st',
     kvstore.Insert (Some s) key value st = Returns (r, st') ->
     exists err,
       KVStore_Insert (kvstore.kvstore s) key value st = Returns (err, st') /\
       (r = None <-> err = None)) /\
  (forall st r st',
     kvstore.Delete (Some s) key st = Returns (r, st') ->
     exists err,
       KVStore_Delete (kvstore.kvstore s) key st = Returns (err, st') /\
       (r = None <-> err = None)).
Proof.
  split.
  - intros value st r st'. unfold kvstore.Insert, bind, deref, ret. cbn.
    destruct (KVStore_Insert _ _ _ _) as [[[err|] st1]|]; [| |discriminate].
    + destruct (IsFastlyError err) as [status [|]]; cbn; split_status;
        intros [= <- <-]; eexists; (split; [reflexivity |]); split; discriminate.
    + intros [= <- <-]. eexists; split; reflexivity.
  - intros st r st'. unfold kvstore.Delete, bind, deref, ret. cbn.
    destruct (KVStore_Delete _ _ _) as [[[err|] st1]|]; [| |discriminate].
    + destruct (IsFastlyError err) as [status [|]]; cbn; split_status;
        intros [= <- <-]; eexists; (split; [reflexivity |]); split; discriminate.
    + intros [= <- <-]. eexists; split; reflexivity.
Qed.

(** X1 on a host that fails every call with the status INVAL, and on
    the idealized host. *)
Lemma X1_kv_Insert_Delete_nil_iff_witness :
  (exists err,
     @KVStore_Delete unit (hosts.failing_kv (FastlyError 2%N)) None "k" tt
       = Returns (err, tt) /\
     (Some kvstore.ErrInvalidKey = None <-> err = None)) /\
  (exists err,
     @KVStore_Insert _ (@hosts.ideal_kv hosts.abi) (Some "s") "k"
        (Some (io.NewReader [])) {["s" := ∅]}
       = Returns (err, {["s" := {["k" := []]}]}) /\
     (@None error = None <-> err = None)).
Proof.
  split.
  - apply (proj2 (@X1_kv_Insert_Delete_nil_iff hosts.abi unit
                    (hosts.failing_kv (FastlyError 2%N))
                    (@kvstore.mkStore unit (hosts.failing_kv (FastlyError 2%N)) None)
                    "k") tt (Some kvstore.ErrInvalidKey) tt).
    reflexivity.
  - apply (proj1 (@X1_kv_Insert_Delete_nil_iff hosts.abi _
                    (@hosts.ideal_kv hosts.abi)
                    (@kvstore.mkStore _ (@hosts.ideal_kv hosts.abi) (Some "s"))
                    "k") (Some (io.NewReader [])) {["s" := ∅]} None
                 {["s" := {["k" := []]}]}).
    unfold kvstore.Insert, bind, deref, ret. cbn.
    unfold hosts.ideal_insert, hosts.ideal_store.
    rewrite lookup_singleton_eq. cbn.
    now rewrite insert_singleton_eq, insert_empty.
Defined.

(** X2. kvstore.Open and kvstore.Lookup return a value or an error, never
    both and never neither: whenever the call returns, the pointer is
    nil exactly when the error is not nil. *)
Theorem X2_kv_value_xor_error `{ABI} {Σ : Type} `{!KVHost Σ} :
  (forall name st p e st',
     kvstore.Open name st = Returns ((p, e), st') -> (p = None <-> e <> None)) /\
  (forall s key st p e st',
     kvstore.Lookup (Some s) key st = Returns ((p, e), st') ->
     (p = None <-> e <> None)).
Proof.
  split.
  - intros name st p e st'. unfold kvstore.Open, bind, ret.
    destruct (OpenKVStore name st) as [[[o [err|]] st1]|]; [| |discriminate].
    + destruct (IsFastlyError err) as [status [|]]; cbn; split_status;
        intros [= <- <- <-]; split; congruence.
    + intros [= <- <- <-]. split; congruence.
  - intros s key st p e st'. unfold kvstore.Lookup, bind, deref, ret. cbn.
    destruct (KVStore_Lookup _ _ _) as [[[val [err|]] st1]|]; [| |discriminate].
    + destruct (IsFastlyError err) as [status [|]]; cbn; split_status;
        intros [= <- <- <-]; split; congruence.
    + intros [= <- <- <-]. split; congruence.
Qed.

(** X2 on a host that fails with an error that is no status, and on the
    idealized host with a stored value. *)
Lemma X2_kv_value_xor_error_witness :
  (@None (@kvstore.Store unit (hosts.failing_kv (errorString "link down"))) = None
   <-> Some (errorString "link down") <> None) /\
  (Some (kvstore.mkEntry (Some (io.NewReader (list_byte_of_string "v"))) false "")
     = None <-> @None error <> None).
Proof.
  split.
  - apply (proj1 (@X2_kv_value_xor_error hosts.abi unit
                    (hosts.failing_kv (errorString "link down"))) "s" tt _ _ tt).
    reflexivity.
  - apply (proj2 (@X2_kv_value_xor_error hosts.abi _ (@hosts.ideal_kv hosts.abi))
                 (@kvstore.mkStore _ (@hosts.ideal_kv hosts.abi) (Some "s")) "k"
                 {["s" := {["k" := list_byte_of_string "v"]}]} _ _
                 {["s" := {["k" := list_byte_of_string "v"]}]}).
    unfold kvstore.Lookup, bind, deref, ret. cbn.
    unfold hosts.ideal_lookup, hosts.ideal_store.
    rewrite lookup_singleton_eq. cbn. now rewrite lookup_singleton_eq.
Defined.

(** X3. configstore.Open returns a Store or an error, never both and
    never neither.  configstore.Get, on every receiver, returns the empty
    string whenever it returns an error, also when the host delivered a
    value together with its error. *)
Theorem X3_config_value_xor_error `{ABI} {Σ : Type} `{!DictHost Σ} :
  (forall name st p e st',
     configstore.Open name st = Returns ((p, e), st') ->
     (p = None <-> e <> None)) /\
  (forall s key st v e st',
     configstore.Get s key st = Returns ((v, Some e), st') -> v = "").
Proof.
  split.
  - intros name st p e st'. unfold configstore.Open, bind, ret.
    destruct (OpenDictionary name st) as [[[d [err|]] st1]|]; [| |discriminate].
    + destruct (IsFastlyError err) as [status [|]]; cbn; split_status;
        intros [= <- <- <-]; split; congruence.
    + intros [= <- <- <-]. split; congruence.
  - intros [s|] key st v e st'; unfold configstore.Get, bind, ret.
    + destruct (Dictionary_Get _ _ _) as [[[v0 [err|]] st1]|]; [| |discriminate].
      * destruct (IsFastlyError err) as [status [|]]; cbn; split_status;
          now intros [= <- _ _].
      * intros [=].
    + now intros [= <- _ _].
Qed.

(** A config host whose Get delivers the value "stale" together with the
    status 1. *)
Definition stale_dict : DictHost unit := {|
  Dictionary := unit;
  OpenDictionary := fun _ => ret (Some tt, None);
  Dictionary_Get := fun _ _ => ret ("stale", Some (FastlyError 1%N))
|}.

(** X3 on a host whose Get delivers a value together with an error. *)
Lemma X3_config_value_xor_error_witness :
  (Some (@configstore.mkStore unit stale_dict (Some tt)) = None
   <-> @None error <> None) /\
  @Dictionary_Get unit stale_dict (Some tt) "k" tt
    = Returns (("stale", Some (FastlyError 1%N)), tt) /\
  "" = "".
Proof.
  pose proof (@X3_config_value_xor_error hosts.abi unit stale_dict) as [HOpen HGet].
  split; [| split; [reflexivity |]].
  - apply (HOpen "s" tt _ _ tt). reflexivity.
  - symmetry.
    apply (HGet (Some (@configstore.mkStore unit stale_dict (Some tt))) "k" tt
             "" (FastlyError 1%N) tt).
    reflexivity.
Defined.

(* ===================================================================== *)
(** ** Which sentinel a caller can match                                  *)
(* ===================================================================== *)

(** X4. kvstore.Insert has no case for the status NONE: where Lookup and
    Delete answer [ErrKeyNotFound], Insert answers an error that wraps
    [ErrUnexpected]; no recognized status makes Insert answer
    [ErrKeyNotFound]. *)
Theorem X4_kv_Insert_has_no_not_found `{ABI} {Σ : Type} `{!KVHost Σ}
    (s : kvstore.Store) (key : string) (value : option io.Reader)
    (st st' : Σ) (err : error) (status : FastlyStatus) :
  KVStore_Insert (kvstore.kvstore s) key value st = Returns (Some err, st') ->
  IsFastlyError err = (status, true) ->
  exists r,
    kvstore.Insert (Some s) key value st = Returns (Some r, st') /\
    errors.Is r kvstore.ErrKeyNotFound = false /\
    (status = FastlyStatusNone ->
       r = wrapError ("kvstore: unexpected error (" +:+
                      FastlyStatus_String FastlyStatusNone +:+ ")")
                     kvstore.ErrUnexpected).
Proof.
  intros Hcall Hrec. run_wrapper Hcall. rewrite Hrec.
  destruct FastlyStatus_neq as (? & ? & ? & ? & ? & ?).
  cbn; split_status; eexists; (split; [reflexivity |]);
    (split; [reflexivity |]); intros; subst; solve [congruence | reflexivity].
Qed.

(** X4 on a host that fails with the status NONE. *)
Lemma X4_kv_Insert_has_no_not_found_witness :
  exists r,
    @kvstore.Insert hosts.abi unit (hosts.failing_kv (FastlyError 10%N))
       (Some (@kvstore.mkStore unit (hosts.failing_kv (FastlyError 10%N)) None))
       "k" None tt = Returns (Some r, tt) /\
    errors.Is r kvstore.ErrKeyNotFound = false /\
    (10%N = 10%N ->
       r = wrapError "kvstore: unexpected error (10)" kvstore.ErrUnexpected).
Proof.
  exact (@X4_kv_Insert_has_no_not_found hosts.abi unit
           (hosts.failing_kv (FastlyError 10%N))
           (@kvstore.mkStore unit (hosts.failing_kv (FastlyError 10%N)) None)
           "k" None tt tt (FastlyError 10%N) 10%N eq_refl eq_refl).
Defined.

(** X5. For a recognized host status, the error of kvstore.Lookup matches
    exactly one of the three sentinels under [errors.Is], and the status
    decides which: [ErrKeyNotFound] for NONE, [ErrInvalidKey] for INVAL,
    [ErrUnexpected] for every other status. *)
Theorem X5_kv_Lookup_one_sentinel `{ABI} {Σ : Type} `{!KVHost Σ}
    (s : kvstore.Store) (key : string) (st st' : Σ)
    (val : option io.Reader) (err : error) (status : FastlyStatus) :
  KVStore_Lookup (kvstore.kvstore s) key st = Returns ((val, Some err), st') ->
  IsFastlyError err = (status, true) ->
  exists r,
    kvstore.Lookup (Some s) key st = Returns ((None, Some r), st') /\
    (errors.Is r kvstore.ErrKeyNotFound = true <-> status = FastlyStatusNone) /\
    (errors.Is r kvstore.ErrInvalidKey = true <-> status = FastlyStatusInval) /\
    (errors.Is r kvstore.ErrUnexpected = true <->
       status <> FastlyStatusNone /\ status <> FastlyStatusInval).
Proof.
  intros Hcall Hrec. run_wrapper Hcall. rewrite Hrec.
  destruct FastlyStatus_neq as (? & ? & ? & ? & ? & ?).
  cbn; split_status; eexists; (split; [reflexivity |]); cbn;
    repeat match goal with |- _ /\ _ => split | |- _ <-> _ => split end;
    intros; try reflexivity; try discriminate; try congruence;
    try tauto.
Qed.

(** X5 on a host that fails with the status BADF: only [ErrUnexpected]
    matches. *)
Lemma X5_kv_Lookup_one_sentinel_witness :
  exists r,
    @kvstore.Lookup hosts.abi unit (hosts.failing_kv (FastlyError 3%N))
       (Some (@kvstore.mkStore unit (hosts.failing_kv (FastlyError 3%N)) None))
       "k" tt = Returns ((None, Some r), tt) /\
    (errors.Is r kvstore.ErrKeyNotFound = true <-> 3%N = 10%N) /\
    (errors.Is r kvstore.ErrInvalidKey = true <-> 3%N = 2%N) /\
    (errors.Is r kvstore.ErrUnexpected = true <-> 3%N <> 10%N /\ 3%N <> 2%N).
Proof.
  exact (@X5_kv_Lookup_one_sentinel hosts.abi unit
           (hosts.failing_kv (FastlyError 3%N))
           (@kvstore.mkStore unit (hosts.failing_kv (FastlyError 3%N)) None)
           "k" tt tt None (FastlyError 3%N) 3%N eq_refl eq_refl).
Defined.

Lemma append_paren_inj (a b : string) : a +:+ ")" = b +:+ ")" -> a = b.
Proof.
  revert b. induction a as [|x a IH]; intros [|y b]; cbn; intros E.
  - reflexivity.
  - injection E as _ E. destruct b; discriminate.
  - injection E as _ E. destruct a; discriminate.
  - injection E as -> E. f_equal. now apply IH.
Qed.

(** X6. The unexpected error keeps the status: the errors built for two
    statuses are equal exactly when the two statuses print alike, so the
    printed status can be read back from the error. *)
Theorem X6_unexpected_error_keeps_status `{ABI} (status1 status2 : FastlyStatus) :
  fmt.Errorf_w_s kvstore.ErrUnexpected status1 =
  fmt.Errorf_w_s kvstore.ErrUnexpected status2 <->
  FastlyStatus_String status1 = FastlyStatus_String status2.
Proof.
  unfold fmt.Errorf_w_s. split.
  - intros [= E]. now apply append_paren_inj.
  - now intros ->.
Qed.

(* ===================================================================== *)
(** ** Entry.String over streams                                          *)
(* ===================================================================== *)

(** The loop started on a buffer [b] gives [b] followed by what it gives
    when started on the empty buffer. *)
Lemma ReadAll_loop_buffer p n b :
  io.ReadAll_loop p n b =
  let '((b', err), r') := io.ReadAll_loop p n [] in (((b ++ b')%list, err), r').
Proof.
  revert n b. induction p as [|[data [e|]] rest IH]; intros n b; cbn.
  - now rewrite app_nil_r.
  - destruct (decide (e = io.EOF)); reflexivity.
  - rewrite (IH (S n) (b ++ data)%list), (IH (S n) data).
    destruct (io.ReadAll_loop rest (S n) []) as [[b' err] r'].
    now rewrite app_assoc.
Qed.

(** Chunks delivered without an error are appended, one [Read] each. *)
Lemma ReadAll_loop_chunks (chunks : list (list byte)) tail n b :
  io.ReadAll_loop (map (fun d => (d, None)) chunks ++ tail) n b =
  io.ReadAll_loop tail (n + length chunks) (b ++ concat chunks)%list.
Proof.
  revert n b. induction chunks as [|d chunks IH]; intros n b; cbn.
  - now rewrite Nat.add_0_r, app_nil_r.
  - rewrite IH. now rewrite app_assoc, Nat.add_succ_r.
Qed.

(** X7. On a fresh Entry over a stream that delivers its chunks without
    an error, [String] returns the chunks put together in order, after
    one [Read] per chunk and one more that meets the end of the stream
    (either the end of what the stream holds, or a last chunk delivered
    together with EOF, behind which nothing is read). *)
Theorem X7_String_concatenates_chunks
    (chunks : list (list byte)) (last : list byte)
    (junk : list (list byte * option error)) (n : nat) (s0 : string) :
  let ok := map (fun d => (d, @None error)) chunks in
  kvstore.String (kvstore.mkEntry (Some (io.mkReader ok n)) false s0) =
    Returns (string_of_list_byte (concat chunks),
             kvstore.mkEntry (Some (io.mkReader [] (S (n + length chunks))))
               true (string_of_list_byte (concat chunks))) /\
  kvstore.String
    (kvstore.mkEntry
       (Some (io.mkReader (ok ++ (last, Some io.EOF) :: junk) n)) false s0) =
    Returns (string_of_list_byte (concat chunks ++ last),
             kvstore.mkEntry (Some (io.mkReader junk (S (n + length chunks))))
               true (string_of_list_byte (concat chunks ++ last))).
Proof.
  cbv zeta. split.
  - apply String_drained with (r := io.mkReader (map (fun d => (d, None)) chunks) n);
      try reflexivity.
    unfold io.ReadAll; cbn.
    rewrite <- (app_nil_r (map _ chunks)), ReadAll_loop_chunks. reflexivity.
  - eapply String_drained; try reflexivity.
    unfold io.ReadAll; cbn. rewrite ReadAll_loop_chunks. reflexivity.
Qed.

(** X8. Mixing the two ways of consuming an Entry loses data: after one
    [Read] on the Entry has taken a chunk [d] off the stream, [String]
    returns what the stream delivers behind [d], where [String] on the
    untouched Entry would have returned [d] followed by it. *)
Theorem X8_Read_then_String_misses_chunk (e : kvstore.Entry) (r r' : io.Reader)
    (d b : list byte) (rest : list (list byte * option error)) :
  kvstore.validString e = false ->
  kvstore.Reader e = Some r ->
  io.pending r = (d, None) :: rest ->
  io.ReadAll r = ((b, None), r') ->
  exists e1 b',
    Entry_Read e = Returns ((d, None), e1) /\
    b = (d ++ b')%list /\
    kvstore.String e =
      Returns (string_of_list_byte (d ++ b'),
               kvstore.mkEntry (Some r') true (string_of_list_byte (d ++ b'))) /\
    kvstore.String e1 =
      Returns (string_of_list_byte b',
               kvstore.mkEntry (Some r') true (string_of_list_byte b')).
Proof.
  intros Hv Hr Hp Hall.
  unfold io.ReadAll in Hall. rewrite Hp in Hall. cbn in Hall.
  rewrite ReadAll_loop_buffer in Hall.
  destruct (io.ReadAll_loop rest (S (io.reads r)) []) as [[b' err] r0] eqn:Hrest.
  injection Hall as <- -> ->.
  exists (kvstore.mkEntry (Some (io.mkReader rest (S (io.reads r)))) false (kvstore.s e)),
         b'.
  split; [| split; [reflexivity | split]].
  - unfold Entry_Read, io.Read. now rewrite Hr, Hp, Hv.
  - apply String_drained with (r := r); try assumption.
    unfold io.ReadAll. rewrite Hp. cbn. rewrite ReadAll_loop_buffer, Hrest.
    reflexivity.
  - unfold kvstore.String, io.ReadAll; cbn. now rewrite Hrest.
Qed.

(** A fresh entry over the stream that delivers "wor" and "ld". *)
Definition chunked_entry : kvstore.Entry :=
  kvstore.mkEntry
    (Some (io.mkReader [(list_byte_of_string "wor", None);
                        (list_byte_of_string "ld", None)] 0)) false "".

(** X8 on the stream that delivers "wor" and "ld". *)
Lemma X8_Read_then_String_misses_chunk_witness :
  exists e1 b',
    Entry_Read chunked_entry = Returns ((list_byte_of_string "wor", None), e1) /\
    list_byte_of_string "world" = (list_byte_of_string "wor" ++ b')%list /\
    kvstore.String chunked_entry =
      Returns (string_of_list_byte (list_byte_of_string "wor" ++ b'),
               kvstore.mkEntry (Some (io.mkReader [] 3)) true
                 (string_of_list_byte (list_byte_of_string "wor" ++ b'))) /\
    kvstore.String e1 =
      Returns (string_of_list_byte b',
               kvstore.mkEntry (Some (io.mkReader [] 3)) true
                 (string_of_list_byte b')).
Proof.
  exact (X8_Read_then_String_misses_chunk chunked_entry _ (io.mkReader [] 3)
           (list_byte_of_string "wor") (list_byte_of_string "world")
           [(list_byte_of_string "ld", None)] eq_refl eq_refl eq_refl eq_refl).
Defined.

(** X9. Once an Entry holds a valid string, any number of calls of
    [String] in a row return that string each time and leave the Entry,
    its stream included, as it is. *)
Theorem X9_String_times_cached (n : nat) (e : kvstore.Entry) :
  kvstore.validString e = true ->
  String_times n e = Returns (repeat (kvstore.s e) n, e).
Proof.
  intros Hv. induction n as [|n IH]; cbn; [reflexivity |].
  now rewrite (String_cached e Hv), IH.
Qed.

(** X9 on an Entry that holds "world": three calls. *)
Lemma X9_String_times_cached_witness :
  String_times 3 (kvstore.mkEntry (Some (io.mkReader [] 2)) true "world") =
  Returns (["world"; "world"; "world"],
           kvstore.mkEntry (Some (io.mkReader [] 2)) true "world").
Proof.
  exact (X9_String_times_cached 3
           (kvstore.mkEntry (Some (io.mkReader [] 2)) true "world") eq_refl).
Defined.

(** X10. The bytes read before a failure are lost for good: when the
    drain of the first [String] call fails after the bytes [b], and the
    drain of the second call succeeds, the second call returns and
    caches only what the stream delivered after the failure, without
    [b]. *)
Theorem X10_String_retry_misses_bytes (e : kvstore.Entry)
    (r r' r'' : io.Reader) (b b2 : list byte) (err : error) :
  kvstore.validString e = false ->
  kvstore.Reader e = Some r ->
  io.ReadAll r = ((b, Some err), r') ->
  io.ReadAll r' = ((b2, None), r'') ->
  String_times 2 e =
  Returns ([""; string_of_list_byte b2],
           kvstore.mkEntry (Some r'') true (string_of_list_byte b2)).
Proof.
  intros Hv Hr Hall Hall2. cbn.
  rewrite (String_drain_failed e r b err r' Hv Hr Hall).
  now rewrite (String_drained (kvstore.mkEntry (Some r') false (kvstore.s e))
                 r' b2 r'' eq_refl eq_refl Hall2).
Qed.

(** X10 on the stream that fails after "par" and then is at its end: the
    second call returns the empty string and caches it. *)
Lemma X10_String_retry_misses_bytes_witness :
  String_times 2 hosts.broken_entry =
  Returns ([""; ""], kvstore.mkEntry (Some (io.mkReader [] 3)) true "").
Proof.
  exact (X10_String_retry_misses_bytes hosts.broken_entry _
           (io.mkReader [] 2) (io.mkReader [] 3)
           (list_byte_of_string "par") [] (errors.New "connection reset")
           eq_refl eq_refl eq_refl eq_refl).
Defined.

(* ===================================================================== *)
(** ** Lookup followed by String                                          *)
(* ===================================================================== *)

(** X11. The Entry of a successful kvstore.Lookup is fresh: nothing is
    cached in it, so the first [String] call on it is decided by the
    stream the host handed out: the drained bytes when the drain meets
    no read error, the empty string (with nothing cached) when it does,
    and a panic when the host handed out a nil stream with a nil
    error. *)
Theorem X11_kv_Lookup_then_String `{ABI} {Σ : Type} `{!KVHost Σ}
    (s : kvstore.Store) (key : string) (st st' : Σ) (val : option io.Reader) :
  KVStore_Lookup (kvstore.kvstore s) key st = Returns ((val, None), st') ->
  exists e,
    kvstore.Lookup (Some s) key st = Returns ((Some e, None), st') /\
    kvstore.validString e = false /\
    kvstore.String e =
      match val with
      | None => Panics
      | Some r =>
          match io.ReadAll r with
          | ((b, None), r') =>
              Returns (string_of_list_byte b,
                       kvstore.mkEntry (Some r') true (string_of_list_byte b))
          | ((_, Some _), r') => Returns ("", kvstore.mkEntry (Some r') false "")
          end
      end.
Proof.
  intros Hcall. exists (kvstore.mkEntry val false "").
  split; [now apply kv_Lookup_succeeds |].
  split; [reflexivity |].
  unfold kvstore.String; cbn. destruct val as [r|]; [| reflexivity].
  now destruct (io.ReadAll r) as [[b [err|]] r'].
Qed.

(** A KV host whose Lookup hands out the stream that fails after "par". *)
Definition broken_kv : KVHost unit := {|
  KVStore := unit;
  OpenKVStore := fun _ => ret (Some tt, None);
  KVStore_Lookup := fun _ _ =>
    ret (Some (io.mkReader [(list_byte_of_string "par", None);
                            ([], Some (errors.New "connection reset"))] 0), None);
  KVStore_Insert := fun _ _ _ => ret None;
  KVStore_Delete := fun _ _ => ret None
|}.

(** X11 on a host whose stream fails after "par". *)
Lemma X11_kv_Lookup_then_String_witness :
  exists e,
    @kvstore.Lookup hosts.abi unit broken_kv
       (Some (@kvstore.mkStore unit broken_kv (Some tt))) "k" tt
      = Returns ((Some e, None), tt) /\
    kvstore.validString e = false /\
    kvstore.String e = Returns ("", kvstore.mkEntry (Some (io.mkReader [] 2)) false "").
Proof.
  exact (@X11_kv_Lookup_then_String hosts.abi unit broken_kv
           (@kvstore.mkStore unit broken_kv (Some tt)) "k" tt tt _ eq_refl).
Defined.

(* ===================================================================== *)
(** ** The wrappers on the idealized host                                 *)
(* ===================================================================== *)

Section IdealOps.
Context `{ABI}.

#[local] Existing Instance hosts.ideal_kv.

Lemma ideal_Open_ok (name : string) (st : gmap string (gmap string (list byte))) m :
  st !! name = Some m ->
  kvstore.Open name st = Returns ((Some (kvstore.mkStore (Some name)), None), st).
Proof.
  intros Hm. unfold kvstore.Open, bind, ret. cbn. unfold hosts.ideal_open.
  now rewrite Hm.
Qed.

Lemma ideal_Open_missing (name : string) (st : gmap string (gmap string (list byte))) :
  st !! name = None ->
  exists r, kvstore.Open name st = Returns ((None, Some r), st).
Proof.
  intros Hm.
  destruct (kv_Open_fails name st None (FastlyError FastlyStatusInval) st)
    as (r & Hr & _); [| eauto].
  cbn. unfold hosts.ideal_open. now rewrite Hm.
Qed.

Lemma ideal_Lookup_ok (name k : string) v (st : gmap string (gmap string (list byte))) m :
  st !! name = Some m -> m !! k = Some v ->
  kvstore.Lookup (Some (kvstore.mkStore (Some name))) k st =
  Returns ((Some (kvstore.mkEntry (Some (io.NewReader v)) false ""), None), st).
Proof.
  intros Hm Hk. apply kv_Lookup_succeeds.
  cbv [KVStore_Lookup hosts.ideal_kv hosts.ideal_lookup hosts.ideal_store
       kvstore.kvstore].
  now rewrite Hm, Hk.
Qed.

Lemma ideal_Lookup_missing (name k : string) (st : gmap string (gmap string (list byte))) m :
  st !! name = Some m -> m !! k = None ->
  exists r,
    kvstore.Lookup (Some (kvstore.mkStore (Some name))) k st
      = Returns ((None, Some r), st) /\
    classified kv_Lookup_table kvstore.ErrUnexpected
      (FastlyError FastlyStatusNone) r.
Proof.
  intros Hm Hk.
  apply (kv_Lookup_fails (@kvstore.mkStore _ hosts.ideal_kv (Some name)) k st None).
  cbv [KVStore_Lookup hosts.ideal_kv hosts.ideal_lookup hosts.ideal_store
       kvstore.kvstore].
  now rewrite Hm, Hk.
Qed.

Lemma ideal_Insert_ok (name k : string) v (st : gmap string (gmap string (list byte))) m :
  st !! name = Some m ->
  kvstore.Insert (Some (kvstore.mkStore (Some name))) k (Some (io.NewReader v)) st =
  Returns (None, <[name := <[k := v]> m]> st).
Proof.
  intros Hm. apply kv_Insert_succeeds.
  cbv [KVStore_Insert hosts.ideal_kv hosts.ideal_insert hosts.ideal_store
       kvstore.kvstore].
  rewrite Hm.
  pose proof (ReadAll_NewReader v) as Hall.
  destruct (io.ReadAll (io.NewReader v)) as [[b err] r']. cbn in Hall.
  now injection Hall as -> ->.
Qed.

Lemma String_NewReader v :
  exists e',
    kvstore.String (kvstore.mkEntry (Some (io.NewReader v)) false "")
      = Returns (string_of_list_byte v, e').
Proof.
  pose proof (ReadAll_NewReader v) as Hall.
  destruct (io.ReadAll (io.NewReader v)) as [[b err] r'] eqn:E. cbn in Hall.
  injection Hall as -> ->. eexists.
  now apply (String_drained _ (io.NewReader v) v r').
Qed.

End IdealOps.

(** X12. [TestKVStore] on the idealized host passes (reports nothing)
    exactly when the store "example-test-kv-store" exists and holds the
    bytes of "world" under "hello"; it then leaves "cat" under "animal"
    in that store and changes nothing else. *)
Theorem X12_TestKVStore_passes_iff `{ABI}
    (st : gmap string (gmap string (list byte))) :
  ((exists st', @kvstore_test.TestKVStore _ _ hosts.ideal_kv st = Returns ([], st'))
   <->
   (exists m, st !! "example-test-kv-store" = Some m /\
              m !! "hello" = Some (list_byte_of_string "world"))) /\
  (forall m, st !! "example-test-kv-store" = Some m ->
     m !! "hello" = Some (list_byte_of_string "world") ->
     @kvstore_test.TestKVStore _ _ hosts.ideal_kv st =
     Returns ([], <["example-test-kv-store" :=
                      <["animal" := list_byte_of_string "cat"]> m]> st)).
Proof.
  assert (Hanimal : forall m t,
            st !! "example-test-kv-store" = Some m ->
              (let* err := @kvstore.Insert _ _ hosts.ideal_kv
                             (Some (@kvstore.mkStore _ hosts.ideal_kv
                                      (Some "example-test-kv-store")))
                             "animal"
                             (Some (io.NewReader (list_byte_of_string "cat"))) in
               match err with
               | Some err => ret (t ++ [kvstore_test.Fatal err])%list
               | None =>
                   let* (animal, err) :=
                     @kvstore.Lookup _ _ hosts.ideal_kv
                       (Some (@kvstore.mkStore _ hosts.ideal_kv
                                      (Some "example-test-kv-store")))
                       "animal" in
                   match err with
                   | Some err => ret (t ++ [kvstore_test.Fatal err])%list
                   | None =>
                       let* animal := deref animal in
                       let* (got, _) := lift (kvstore.String animal) in
                       ret (t ++ if decide (got = "cat") then []
                                 else [kvstore_test.Errorf "Insert" got "cat"])%list
                   end
               end) st
              = Returns ((t ++ [])%list,
                         <["example-test-kv-store" :=
                             <["animal" := list_byte_of_string "cat"]> m]> st)).
  { intros m t Hm. unfold bind at 1.
    rewrite (ideal_Insert_ok _ "animal" (list_byte_of_string "cat") st m Hm).
    unfold bind at 1.
    rewrite (ideal_Lookup_ok _ "animal" (list_byte_of_string "cat") _
               (<["animal" := list_byte_of_string "cat"]> m));
      [| apply lookup_insert_eq | apply lookup_insert_eq].
    reflexivity. }
  assert (Hpass : forall m, st !! "example-test-kv-store" = Some m ->
            m !! "hello" = Some (list_byte_of_string "world") ->
            @kvstore_test.TestKVStore _ _ hosts.ideal_kv st =
            Returns ([], <["example-test-kv-store" :=
                             <["animal" := list_byte_of_string "cat"]> m]> st)).
  { intros m Hm Hhello. unfold kvstore_test.TestKVStore, bind at 1.
    rewrite (ideal_Open_ok _ st m Hm). unfold bind at 1.
    rewrite (ideal_Lookup_ok _ "hello" _ st m Hm Hhello).
    unfold bind at 1. cbn [deref ret]. unfold bind at 1.
    unfold lift at 1.
    destruct (String_NewReader (list_byte_of_string "world")) as [e' ->].
    exact (Hanimal m [] Hm). }
  split; [split |].
  - intros [st' Hrun].
    unfold kvstore_test.TestKVStore, bind at 1 in Hrun.
    destruct (st !! "example-test-kv-store") as [m|] eqn:Hm.
    + exists m. split; [reflexivity |].
      rewrite (ideal_Open_ok _ st m Hm) in Hrun. unfold bind at 1 in Hrun.
      destruct (m !! "hello") as [v|] eqn:Hhello.
      * rewrite (ideal_Lookup_ok _ "hello" v st m Hm Hhello) in Hrun.
        unfold bind at 1 in Hrun. cbn [deref ret] in Hrun.
        unfold bind at 1 in Hrun. unfold lift at 1 in Hrun.
        destruct (String_NewReader v) as [e' HS]. rewrite HS in Hrun.
        destruct (decide (string_of_list_byte v = "world")) as [Hv|Hv].
        -- f_equal. rewrite <- (list_byte_of_string_of_list_byte v). now rewrite Hv.
        -- exfalso.
           rewrite (Hanimal m [kvstore_test.Errorf "Lookup" (string_of_list_byte v)
                                 "world"] eq_refl) in Hrun.
           discriminate Hrun.
      * exfalso.
        destruct (ideal_Lookup_missing _ "hello" st m Hm Hhello) as (r & Hr & _).
        rewrite Hr in Hrun. discriminate Hrun.
    + exfalso. destruct (ideal_Open_missing _ st Hm) as (r & Hr).
      rewrite Hr in Hrun. discriminate Hrun.
  - intros (m & Hm & Hhello). eexists. exact (Hpass m Hm Hhello).
  - exact Hpass.
Qed.

(** X12 on a host whose store holds "world" under "hello". *)
Lemma X12_TestKVStore_passes_iff_witness :
  @kvstore_test.TestKVStore hosts.abi _ (@hosts.ideal_kv hosts.abi)
    {["example-test-kv-store" := {["hello" := list_byte_of_string "world"]}]} =
  Returns ([], <["example-test-kv-store" :=
                   <["animal" := list_byte_of_string "cat"]>
                     {["hello" := list_byte_of_string "world"]}]>
                 {["example-test-kv-store" :=
                     {["hello" := list_byte_of_string "world"]}]}).
Proof.
  apply (proj2 (@X12_TestKVStore_passes_iff hosts.abi
                  {["example-test-kv-store" :=
                      {["hello" := list_byte_of_string "world"]}]})).
  - apply lookup_singleton_eq.
  - apply lookup_singleton_eq.
Defined.

Section IdealDelete.
Context `{ABI}.

#[local] Existing Instance hosts.ideal_kv.

Lemma ideal_Lookup_not_found (name k : string)
    (st : gmap string (gmap string (list byte))) m :
  IsFastlyError (FastlyError FastlyStatusNone) = (FastlyStatusNone, true) ->
  st !! name = Some m -> m !! k = None ->
  kvstore.Lookup (Some (kvstore.mkStore (Some name))) k st =
  Returns ((None, Some kvstore.ErrKeyNotFound), st).
Proof.
  intros Hrec Hm Hk. unfold kvstore.Lookup, bind, deref, ret.
  cbv [KVStore_Lookup hosts.ideal_kv hosts.ideal_lookup hosts.ideal_store
       kvstore.kvstore].
  now rewrite Hm, Hk, Hrec, N.eqb_refl.
Qed.

Lemma ideal_Delete_result (name k : string)
    (st : gmap string (gmap string (list byte))) m :
  IsFastlyError (FastlyError FastlyStatusNone) = (FastlyStatusNone, true) ->
  st !! name = Some m ->
  kvstore.Delete (Some (kvstore.mkStore (Some name))) k st =
  match m !! k with
  | Some _ => Returns (None, <[name := delete k m]> st)
  | None => Returns (Some kvstore.ErrKeyNotFound, st)
  end.
Proof.
  intros Hrec Hm. unfold kvstore.Delete, bind, deref, ret.
  cbv [KVStore_Delete hosts.ideal_kv hosts.ideal_delete hosts.ideal_store
       kvstore.kvstore].
  rewrite Hm. destruct (m !! k); [reflexivity |].
  now rewrite Hrec, N.eqb_refl.
Qed.

End IdealDelete.

(** X13. On the idealized host, with an ABI under which the host's NONE
    is recognized as the status NONE: Delete of a key of an open store
    succeeds when the key holds a value and answers [ErrKeyNotFound],
    changing nothing, when it does not; in both cases the Lookup of the
    key that follows answers [ErrKeyNotFound]. *)
Theorem X13_ideal_Delete_then_Lookup `{ABI} (name k : string)
    (st : gmap string (gmap string (list byte))) (m : gmap string (list byte)) :
  IsFastlyError (FastlyError FastlyStatusNone) = (FastlyStatusNone, true) ->
  st !! name = Some m ->
  exists r st2,
    @kvstore.Delete _ _ hosts.ideal_kv
       (Some (@kvstore.mkStore _ hosts.ideal_kv (Some name))) k st
      = Returns (r, st2) /\
    r = match m !! k with
        | Some _ => None
        | None => Some kvstore.ErrKeyNotFound
        end /\
    (m !! k = None -> st2 = st) /\
    @kvstore.Lookup _ _ hosts.ideal_kv
       (Some (@kvstore.mkStore _ hosts.ideal_kv (Some name))) k st2
      = Returns ((None, Some kvstore.ErrKeyNotFound), st2).
Proof.
  intros Hrec Hm. rewrite (ideal_Delete_result name k st m Hrec Hm).
  destruct (m !! k) as [v|] eqn:Hk.
  - do 2 eexists. split; [reflexivity | split; [reflexivity | split; [discriminate |]]].
    apply (ideal_Lookup_not_found name k _ (delete k m) Hrec).
    + apply lookup_insert_eq.
    + apply lookup_delete_eq.
  - do 2 eexists. split; [reflexivity | split; [reflexivity | split; [reflexivity |]]].
    now apply (ideal_Lookup_not_found name k st m).
Qed.

(** X13 on a store that holds "cat" under "animal". *)
Lemma X13_ideal_Delete_then_Lookup_witness :
  exists r st2,
    @kvstore.Delete hosts.abi _ (@hosts.ideal_kv hosts.abi)
       (Some (@kvstore.mkStore _ (@hosts.ideal_kv hosts.abi) (Some "s"))) "animal"
       {["s" := {["animal" := list_byte_of_string "cat"]}]}
      = Returns (r, st2) /\
    r = match ({["animal" := list_byte_of_string "cat"]}
                 : gmap string (list byte)) !! "animal" with
        | Some _ => None
        | None => Some kvstore.ErrKeyNotFound
        end /\
    (({["animal" := list_byte_of_string "cat"]} : gmap string (list byte))
       !! "animal" = None ->
     st2 = {["s" := {["animal" := list_byte_of_string "cat"]}]}) /\
    @kvstore.Lookup hosts.abi _ (@hosts.ideal_kv hosts.abi)
       (Some (@kvstore.mkStore _ (@hosts.ideal_kv hosts.abi) (Some "s"))) "animal" st2
      = Returns ((None, Some kvstore.ErrKeyNotFound), st2).
Proof.
  apply (@X13_ideal_Delete_then_Lookup hosts.abi "s" "animal"
           {["s" := {["animal" := list_byte_of_string "cat"]}]}
           {["animal" := list_byte_of_string "cat"]}).
  - reflexivity.
  - apply lookup_singleton_eq.
Defined.
